(** * The task store and conversation log of [packages/core/src/core/mongo-db.ts]

    A shallow embedding of the class [MongoDb]: its documents, the part of
    the MongoDB driver it calls, and each of its public methods, followed
    by the properties of the scheduler and conversation-log specification.

    Conventions of the embedding.
    - A [Date] is its time value, milliseconds since the epoch, as a [Z].
      JavaScript's Invalid Date and non-integer numbers are not represented.
    - Every reading of the clock ([new Date()], [Date.now()]) is an explicit
      argument of the method that performs it, in the order of the source.
    - A collection is the list of its documents in natural (insertion)
      order.  The tasks collection ([collectionName], by default
      ["scheduled_tasks"]) and ["orchestrators"] are distinct collections.
    - Methods are computations in a state-and-exception monad over the
      [MongoDb] object together with the database it talks to.  The server
      is taken to be reachable: transport failures are not represented, and
      [close] is not part of the embedding. *)

From Stdlib Require Import ZArith NArith List String Bool Lia.
From Stdlib Require Import Sorted Permutation.
Import ListNotations.
Local Open Scope string_scope.
Local Open Scope Z_scope.

Set Implicit Arguments.

(* ================================================================== *)
(** * Documents (mongo-db.ts, lines 4-30) *)

Definition ObjectId := N.
Definition Date := Z.

(** The time values of a JavaScript [Date]: [new Date(v)] is a date with
    time value [v] exactly when [v] lies within 8.64e15 milliseconds of
    the epoch, and Invalid Date otherwise. *)
Definition valid_time (v : Z) : Prop :=
  -8640000000000000 <= v <= 8640000000000000.

(** [taskData : Record<string, any>] and [data : unknown] are never
    inspected by the class: they are carried as an opaque serialised value. *)
Definition Payload := string.

Inductive TaskStatus := Pending | Running | Completed | Failed.

Inductive HandlerRole := Input | Output | Action.

Record ScheduledTask := mkScheduledTask {
  task_id : option ObjectId;
  task_userId : string;
  handlerName : string;
  taskData : Payload;
  nextRunAt : Date;
  intervalMs : option Z;
  status : TaskStatus;
  task_createdAt : Date;
  task_updatedAt : Date
}.

Record OrchestratorMessage := mkOrchestratorMessage {
  role : HandlerRole;
  name : string;
  data : Payload;
  timestamp : Date
}.

Record OrchestratorChat := mkOrchestratorChat {
  chat_id : option ObjectId;
  chat_userId : string;
  chat_createdAt : Date;
  chat_updatedAt : Date;
  messages : list OrchestratorMessage
}.

Definition status_eqb (a b : TaskStatus) : bool :=
  match a, b with
  | Pending, Pending | Running, Running
  | Completed, Completed | Failed, Failed => true
  | _, _ => false
  end.

(* ================================================================== *)
(** * The driver: collections, cursors and update operators *)

Module Mongo.
Section Collection.
Variable D : Type.

(** [find(filter)]: the matching documents, in natural order. *)
Definition find (filter : D -> bool) (docs : list D) : list D :=
  List.filter filter docs.

(** [findOne(filter)]: the first matching document, or [null]. *)
Definition findOne (filter : D -> bool) (docs : list D) : option D :=
  List.find filter docs.

(** [updateOne(filter, update)]: the update is applied to the first
    matching document only; without a match nothing changes. *)
Fixpoint updateOne (filter : D -> bool) (update : D -> D) (docs : list D)
  : list D :=
  match docs with
  | [] => []
  | d :: rest =>
      if filter d then update d :: rest
      else d :: updateOne filter update rest
  end.

(** [insertOne(doc)]: the document goes last in natural order. *)
Definition insertOne (doc : D) (docs : list D) : list D := docs ++ [doc].

(** [deleteMany({})]. *)
Definition deleteMany_all (docs : list D) : list D := [].

(** [cursor.sort({ field: direction })], on a field holding a date.
    Direction [1] is ascending, any other direction ([-1]) descending.
    Documents with equal keys keep their relative order. *)
Definition before (key : D -> Z) (direction : Z) (a b : D) : bool :=
  if direction =? 1 then key a <=? key b else key b <=? key a.

Definition in_order (key : D -> Z) (direction : Z) (a b : D) : Prop :=
  before key direction a b = true.

Fixpoint place (key : D -> Z) (direction : Z) (d : D) (sorted : list D)
  : list D :=
  match sorted with
  | [] => [d]
  | e :: rest =>
      if before key direction d e then d :: sorted
      else e :: place key direction d rest
  end.

Definition sort (key : D -> Z) (direction : Z) (docs : list D) : list D :=
  fold_right (place key direction) [] docs.

(** [cursor.limit(n)]: a limit of [0] means no limit, and a negative
    limit is the limit of its absolute value (returned in one batch). *)
Definition limit (n : Z) (docs : list D) : list D :=
  if n =? 0 then docs else firstn (Z.abs_nat n) docs.

(** [cursor.toArray()]. *)
Definition toArray (docs : list D) : list D := docs.
End Collection.

(** An index is named by its key pattern, for instance [{ nextRunAt: 1 }].
    [createIndex] on a pattern that is already indexed changes nothing. *)
Definition IndexSpec := (string * Z)%type.

Definition index_eqb (a b : IndexSpec) : bool :=
  (fst a =? fst b)%string && (snd a =? snd b).

Definition createIndex (ix : IndexSpec) (indexes : list IndexSpec)
  : list IndexSpec :=
  if existsb (index_eqb ix) indexes then indexes else indexes ++ [ix].

(** The [MongoClient]: whether its topology is connected, how many
    listeners are registered on its ["connect"] event, and how many
    times a connection has been established so far. *)
Record MongoClient := mkMongoClient {
  topology_connected : bool;
  connect_listeners : nat;
  connections_opened : nat
}.

(** [client.connect()] on a connected client returns at once; the driver
    applies the same step before an operation on a client that was never
    connected. *)
Definition client_connect (c : MongoClient) : MongoClient :=
  if topology_connected c then c
  else {| topology_connected := true;
          connect_listeners := connect_listeners c;
          connections_opened := S (connections_opened c) |}.

Definition listenerCount_connect (c : MongoClient) : nat :=
  connect_listeners c.
End Mongo.

(** The database [dbName] as the class uses it. *)
Record Database := mkDatabase {
  scheduled_tasks : list ScheduledTask;
  task_indexes : list Mongo.IndexSpec;
  orchestrators : list OrchestratorChat;
  orchestrator_indexes : list Mongo.IndexSpec
}.

(* ================================================================== *)
(** * The [MongoDb] object (lines 32-48) *)

(** [collection] and [orchestratorCollection] record whether the handle
    has been assigned ([connect]) or is still [undefined].
    [next_ObjectId] is the driver's generator of fresh identifiers. *)
Record MongoDb := mkMongoDb {
  client : Mongo.MongoClient;
  collection : bool;
  orchestratorCollection : bool;
  next_ObjectId : ObjectId;
  database : Database
}.

(** [new MongoDb(uri)] in front of a database [d]. *)
Definition constructor (d : Database) (fresh : ObjectId) : MongoDb :=
  {| client := {| Mongo.topology_connected := false;
                  Mongo.connect_listeners := 0;
                  Mongo.connections_opened := 0 |};
     collection := false;
     orchestratorCollection := false;
     next_ObjectId := fresh;
     database := d |}.

(* ================================================================== *)
(** * Computations *)

Inductive Error :=
| TypeError                  (* a method called on an undefined handle *)
| CollectionNotInitialized.  (* "Database collection is not initialized" *)

Inductive Result (A : Type) :=
| Ok (a : A)
| Throw (e : Error).
Arguments Ok {A} a.
Arguments Throw {A} e.

Definition M (A : Type) : Type := MongoDb -> Result (A * MongoDb).

Definition ret {A} (a : A) : M A := fun s => Ok (a, s).

Definition bind {A B} (m : M A) (k : A -> M B) : M B :=
  fun s => match m s with
           | Ok (a, s') => k a s'
           | Throw e => Throw e
           end.

Definition throw {A} (e : Error) : M A := fun _ => Throw e.

Notation "x <- m ;; k" := (bind m (fun x => k))
  (at level 61, m at next level, right associativity).
Notation "m ;;; k" := (bind m (fun _ => k))
  (at level 61, right associativity).

(** The object after a computation; one that throws leaves it as it
    was. *)
Definition after {A} (m : M A) (s : MongoDb) : MongoDb :=
  match m s with
  | Ok (_, s') => s'
  | Throw _ => s
  end.

(** Value returned by a computation. *)
Definition eval {A} (m : M A) (s : MongoDb) : option A :=
  match m s with Ok (a, _) => Some a | Throw _ => None end.

(** ** Primitive steps *)

Definition set_client (c : Mongo.MongoClient) : M unit :=
  fun s => Ok (tt, {| client := c;
                      collection := collection s;
                      orchestratorCollection := orchestratorCollection s;
                      next_ObjectId := next_ObjectId s;
                      database := database s |}).

Definition set_database (d : Database) : M unit :=
  fun s => Ok (tt, {| client := client s;
                      collection := collection s;
                      orchestratorCollection := orchestratorCollection s;
                      next_ObjectId := next_ObjectId s;
                      database := d |}).

Definition assign_collection : M unit :=
  fun s => Ok (tt, {| client := client s;
                      collection := true;
                      orchestratorCollection := orchestratorCollection s;
                      next_ObjectId := next_ObjectId s;
                      database := database s |}).

Definition assign_orchestratorCollection : M unit :=
  fun s => Ok (tt, {| client := client s;
                      collection := collection s;
                      orchestratorCollection := true;
                      next_ObjectId := next_ObjectId s;
                      database := database s |}).

(** A fresh [ObjectId] for a document inserted without [_id]. *)
Definition new_ObjectId : M ObjectId :=
  fun s => Ok (next_ObjectId s,
               {| client := client s;
                  collection := collection s;
                  orchestratorCollection := orchestratorCollection s;
                  next_ObjectId := N.succ (next_ObjectId s);
                  database := database s |}).

(** [this.client.connect()]. *)
Definition this_client_connect : M unit :=
  fun s => set_client (Mongo.client_connect (client s)) s.

(** Dereferencing [this.collection] / [this.orchestratorCollection]:
    a [TypeError] while the handle is [undefined]. *)
Definition this_collection : M unit :=
  fun s => if collection s then Ok (tt, s) else Throw TypeError.

Definition this_orchestratorCollection : M unit :=
  fun s => if orchestratorCollection s then Ok (tt, s) else Throw TypeError.

(** Operations on the two collections; each one is sent over the
    client's connection, which the driver opens when needed. *)
Definition tasks_read {A} (f : list ScheduledTask -> A) : M A :=
  this_client_connect ;;;
  fun s => Ok (f (scheduled_tasks (database s)), s).

Definition tasks_write (f : list ScheduledTask -> list ScheduledTask)
  : M unit :=
  this_client_connect ;;;
  fun s => let d := database s in
           set_database {| scheduled_tasks := f (scheduled_tasks d);
                           task_indexes := task_indexes d;
                           orchestrators := orchestrators d;
                           orchestrator_indexes := orchestrator_indexes d |} s.

Definition tasks_createIndex (ix : Mongo.IndexSpec) : M unit :=
  this_client_connect ;;;
  fun s => let d := database s in
           set_database {| scheduled_tasks := scheduled_tasks d;
                           task_indexes := Mongo.createIndex ix (task_indexes d);
                           orchestrators := orchestrators d;
                           orchestrator_indexes := orchestrator_indexes d |} s.

Definition orchestrators_read {A} (f : list OrchestratorChat -> A) : M A :=
  this_client_connect ;;;
  fun s => Ok (f (orchestrators (database s)), s).

Definition orchestrators_write
  (f : list OrchestratorChat -> list OrchestratorChat) : M unit :=
  this_client_connect ;;;
  fun s => let d := database s in
           set_database {| scheduled_tasks := scheduled_tasks d;
                           task_indexes := task_indexes d;
                           orchestrators := f (orchestrators d);
                           orchestrator_indexes := orchestrator_indexes d |} s.

Definition orchestrators_createIndex (ix : Mongo.IndexSpec) : M unit :=
  this_client_connect ;;;
  fun s => let d := database s in
           set_database {| scheduled_tasks := scheduled_tasks d;
                           task_indexes := task_indexes d;
                           orchestrators := orchestrators d;
                           orchestrator_indexes :=
                             Mongo.createIndex ix (orchestrator_indexes d) |} s.

(* ================================================================== *)
(** * Methods of [MongoDb] *)

(** ** Query filters and update documents *)

(** [{ _id: taskId }]: every stored document carries an [_id]. *)
Definition task_id_is (taskId : ObjectId) (t : ScheduledTask) : bool :=
  match task_id t with
  | Some i => N.eqb i taskId
  | None => false
  end.

Definition chat_id_is (orchestratorId : ObjectId) (c : OrchestratorChat)
  : bool :=
  match chat_id c with
  | Some i => N.eqb i orchestratorId
  | None => false
  end.

(** [{ status: "pending", nextRunAt: { $lte: now } }]. *)
Definition is_due (now : Date) (t : ScheduledTask) : bool :=
  status_eqb (status t) Pending && (nextRunAt t <=? now).

(** [{ userId }]. *)
Definition chat_of_user (userId : string) (c : OrchestratorChat) : bool :=
  (chat_userId c =? userId)%string.

(** [{ $set: { status, updatedAt } }]. *)
Definition set_status (st : TaskStatus) (now : Date) (t : ScheduledTask)
  : ScheduledTask :=
  {| task_id := task_id t;
     task_userId := task_userId t;
     handlerName := handlerName t;
     taskData := taskData t;
     nextRunAt := nextRunAt t;
     intervalMs := intervalMs t;
     status := st;
     task_createdAt := task_createdAt t;
     task_updatedAt := now |}.

(** [{ $set: { status: "pending", nextRunAt, updatedAt } }]. *)
Definition set_pending_at (newRunTime now : Date) (t : ScheduledTask)
  : ScheduledTask :=
  {| task_id := task_id t;
     task_userId := task_userId t;
     handlerName := handlerName t;
     taskData := taskData t;
     nextRunAt := newRunTime;
     intervalMs := intervalMs t;
     status := Pending;
     task_createdAt := task_createdAt t;
     task_updatedAt := now |}.

(** [{ $push: { messages: m }, $set: { updatedAt } }]. *)
Definition push_message (m : OrchestratorMessage) (now : Date)
  (c : OrchestratorChat) : OrchestratorChat :=
  {| chat_id := chat_id c;
     chat_userId := chat_userId c;
     chat_createdAt := chat_createdAt c;
     chat_updatedAt := now;
     messages := messages c ++ [m] |}.

(** The driver fills in [_id] when [insertOne] receives a document
    without one. *)
Definition with_task_id (i : ObjectId) (t : ScheduledTask) : ScheduledTask :=
  {| task_id := Some i;
     task_userId := task_userId t;
     handlerName := handlerName t;
     taskData := taskData t;
     nextRunAt := nextRunAt t;
     intervalMs := intervalMs t;
     status := status t;
     task_createdAt := task_createdAt t;
     task_updatedAt := task_updatedAt t |}.

Definition with_chat_id (i : ObjectId) (c : OrchestratorChat)
  : OrchestratorChat :=
  {| chat_id := Some i;
     chat_userId := chat_userId c;
     chat_createdAt := chat_createdAt c;
     chat_updatedAt := chat_updatedAt c;
     messages := messages c |}.

(** ** connect (lines 53-73) *)
Definition connect : M unit :=
  fun s =>
    ((if Nat.eqb (Mongo.listenerCount_connect (client s)) 0
      then this_client_connect else ret tt) ;;;
     assign_collection ;;;
     tasks_createIndex ("nextRunAt", 1) ;;;
     tasks_createIndex ("status", 1) ;;;
     assign_orchestratorCollection ;;;
     orchestrators_createIndex ("userId", 1)) s.

(** ** createTask (lines 91-112) *)
Definition createTask (now : Date) (userId handlerName0 : string)
  (taskData0 : Payload) (nextRunAt0 : Date) (intervalMs0 : option Z)
  : M ObjectId :=
  let doc := {| task_id := None;
                task_userId := userId;
                handlerName := handlerName0;
                taskData := taskData0;
                nextRunAt := nextRunAt0;
                intervalMs := intervalMs0;
                status := Pending;
                task_createdAt := now;
                task_updatedAt := now |} in
  this_collection ;;;
  insertedId <- new_ObjectId ;;
  tasks_write (Mongo.insertOne (with_task_id insertedId doc)) ;;;
  ret insertedId.

(** ** findDueTasks (lines 120-133) *)
Definition findDueTasks (now : Date) (limit : Z) : M (list ScheduledTask) :=
  fun s =>
    if negb (collection s) then throw CollectionNotInitialized s
    else
      tasks_read (fun docs =>
        Mongo.toArray
          (Mongo.limit limit
             (Mongo.sort nextRunAt 1
                (Mongo.find (is_due now) docs)))) s.

(** The default of the parameter, [limit = 50]. *)
Definition findDueTasks_default (now : Date) : M (list ScheduledTask) :=
  findDueTasks now 50.

(** ** markRunning (lines 138-149) *)
Definition markRunning (now : Date) (taskId : ObjectId) : M unit :=
  this_collection ;;;
  tasks_write (Mongo.updateOne (task_id_is taskId) (set_status Running now)).

(** ** markCompleted (lines 154-168) *)
Definition markCompleted (now : Date) (taskId : ObjectId) (failed : bool)
  : M unit :=
  this_collection ;;;
  tasks_write
    (Mongo.updateOne (task_id_is taskId)
       (set_status (if failed then Failed else Completed) now)).

(** ** updateNextRun (lines 173-188) *)
Definition updateNextRun (now : Date) (taskId : ObjectId) (newRunTime : Date)
  : M unit :=
  this_collection ;;;
  tasks_write
    (Mongo.updateOne (task_id_is taskId) (set_pending_at newRunTime now)).

(** ** rescheduleIfRecurring (lines 194-203) *)

(** [!task.intervalMs]: true of [undefined] and of [0]. *)
Definition not_intervalMs (t : ScheduledTask) : bool :=
  match intervalMs t with
  | None => true
  | Some i => i =? 0
  end.

(** [task._id!] of a task object without [_id] is [undefined], and the
    filter [{ _id: undefined }] selects no stored document. *)
Definition update_nothing : M unit :=
  this_collection ;;;
  tasks_write (Mongo.updateOne (fun _ => false) (fun t => t)).

(** [dateNow] is the reading of [Date.now()] on line 200 and [now] the
    later reading inside [markCompleted] or [updateNextRun].  Past the
    test, [task.intervalMs] is a number other than 0.  [newRunTime]
    stands for [new Date(now + task.intervalMs)], which is the date with
    that time value only while [valid_time] holds of the sum; the
    statements about the new [nextRunAt] carry that hypothesis. *)
Definition rescheduleIfRecurring (dateNow : Z) (now : Date)
  (task : ScheduledTask) : M unit :=
  if not_intervalMs task then
    match task_id task with
    | Some taskId => markCompleted now taskId false
    | None => update_nothing
    end
  else
    let newRunTime :=
      dateNow + match intervalMs task with Some i => i | None => 0 end in
    match task_id task with
    | Some taskId => updateNextRun now taskId newRunTime
    | None => update_nothing
    end.

(** ** deleteAll (lines 208-210) *)
Definition deleteAll : M unit :=
  this_collection ;;;
  tasks_write (@Mongo.deleteMany_all ScheduledTask).

(** ** createOrchestrator (lines 216-225) *)
Definition createOrchestrator (now1 now2 : Date) (userId : string)
  : M ObjectId :=
  let chat := {| chat_id := None;
                 chat_userId := userId;
                 chat_createdAt := now1;
                 chat_updatedAt := now2;
                 messages := [] |} in
  this_orchestratorCollection ;;;
  insertedId <- new_ObjectId ;;
  orchestrators_write (Mongo.insertOne (with_chat_id insertedId chat)) ;;;
  ret insertedId.

(** ** addMessage (lines 235-257) *)

(** [stamp] is the reading of the clock for the message's [timestamp],
    [now] the one for the session's [updatedAt]. *)
Definition addMessage (stamp now : Date) (orchestratorId : ObjectId)
  (role0 : HandlerRole) (name0 : string) (data0 : Payload) : M unit :=
  this_orchestratorCollection ;;;
  orchestrators_write
    (Mongo.updateOne (chat_id_is orchestratorId)
       (push_message {| role := role0;
                        name := name0;
                        data := data0;
                        timestamp := stamp |} now)).

(** ** getMessages (lines 262-270) *)
Definition getMessages (orchestratorId : ObjectId)
  : M (list OrchestratorMessage) :=
  this_orchestratorCollection ;;;
  doc <- orchestrators_read (Mongo.findOne (chat_id_is orchestratorId)) ;;
  match doc with
  | None => ret []
  | Some d => ret (messages d)
  end.

(** ** findOrchestratorsByUser (lines 275-279) *)
Definition findOrchestratorsByUser (userId : string)
  : M (list OrchestratorChat) :=
  this_orchestratorCollection ;;;
  orchestrators_read (fun docs =>
    Mongo.toArray (Mongo.find (chat_of_user userId) docs)).

(** ** getOrchestratorById (lines 284-288) *)
Definition getOrchestratorById (orchestratorId : ObjectId)
  : M (option OrchestratorChat) :=
  this_orchestratorCollection ;;;
  orchestrators_read (Mongo.findOne (chat_id_is orchestratorId)).

(** ** getOrchestratorsByUserId (lines 290-308)

    The collection is reached through [this.client] and not through the
    handle; the [catch] clause logs and rethrows. *)
Definition getOrchestratorsByUserId (userId : string)
  : M (list OrchestratorChat) :=
  orchestrators_read (fun docs =>
    Mongo.toArray
      (Mongo.sort chat_createdAt (-1)
         (Mongo.find (chat_of_user userId) docs))).

(* ================================================================== *)
(** * Observations and sample stores *)

Definition tasks (s : MongoDb) : list ScheduledTask :=
  scheduled_tasks (database s).

Definition chats (s : MongoDb) : list OrchestratorChat :=
  orchestrators (database s).

(** The stored task, respectively session, that a query by [_id] selects. *)
Definition lookup_task (taskId : ObjectId) (s : MongoDb)
  : option ScheduledTask :=
  Mongo.findOne (task_id_is taskId) (tasks s).

Definition lookup_chat (orchestratorId : ObjectId) (s : MongoDb)
  : option OrchestratorChat :=
  Mongo.findOne (chat_id_is orchestratorId) (chats s).

(** The object after a write [f] to the tasks collection. *)
Definition after_tasks_write (f : list ScheduledTask -> list ScheduledTask)
  (s : MongoDb) : MongoDb :=
  {| client := Mongo.client_connect (client s);
     collection := collection s;
     orchestratorCollection := orchestratorCollection s;
     next_ObjectId := next_ObjectId s;
     database :=
       {| scheduled_tasks := f (tasks s);
          task_indexes := task_indexes (database s);
          orchestrators := chats s;
          orchestrator_indexes := orchestrator_indexes (database s) |} |}.

(** The object after a read: the driver has connected the client if it
    was not. *)
Definition after_read (s : MongoDb) : MongoDb :=
  {| client := Mongo.client_connect (client s);
     collection := collection s;
     orchestratorCollection := orchestratorCollection s;
     next_ObjectId := next_ObjectId s;
     database := database s |}.

(** The object after a write [f] to the orchestrators collection. *)
Definition after_chats_write
  (f : list OrchestratorChat -> list OrchestratorChat) (s : MongoDb)
  : MongoDb :=
  {| client := Mongo.client_connect (client s);
     collection := collection s;
     orchestratorCollection := orchestratorCollection s;
     next_ObjectId := next_ObjectId s;
     database :=
       {| scheduled_tasks := tasks s;
          task_indexes := task_indexes (database s);
          orchestrators := f (chats s);
          orchestrator_indexes := orchestrator_indexes (database s) |} |}.


Definition newer_or_same (a b : OrchestratorChat) : Prop :=
  chat_createdAt b <= chat_createdAt a.

(** ** Histories of calls *)

(** A call of a public method, with the clock readings it makes. *)
Inductive Call :=
| Connect
| CreateTask (now : Date) (userId handlerName0 : string)
    (taskData0 : Payload) (nextRunAt0 : Date) (intervalMs0 : option Z)
| FindDueTasks (now : Date) (limit : Z)
| MarkRunning (now : Date) (taskId : ObjectId)
| MarkCompleted (now : Date) (taskId : ObjectId) (failed : bool)
| UpdateNextRun (now : Date) (taskId : ObjectId) (newRunTime : Date)
| RescheduleIfRecurring (dateNow : Z) (now : Date) (task : ScheduledTask)
| DeleteAll
| CreateOrchestrator (now1 now2 : Date) (userId : string)
| AddMessage (stamp now : Date) (orchestratorId : ObjectId)
    (role0 : HandlerRole) (name0 : string) (data0 : Payload)
| GetMessages (orchestratorId : ObjectId)
| FindOrchestratorsByUser (userId : string)
| GetOrchestratorById (orchestratorId : ObjectId)
| GetOrchestratorsByUserId (userId : string).

(** The object after a call. *)
Definition step (c : Call) (s : MongoDb) : MongoDb :=
  match c with
  | Connect => after connect s
  | CreateTask now u h d r i => after (createTask now u h d r i) s
  | FindDueTasks now limit => after (findDueTasks now limit) s
  | MarkRunning now taskId => after (markRunning now taskId) s
  | MarkCompleted now taskId failed =>
      after (markCompleted now taskId failed) s
  | UpdateNextRun now taskId r => after (updateNextRun now taskId r) s
  | RescheduleIfRecurring dateNow now task =>
      after (rescheduleIfRecurring dateNow now task) s
  | DeleteAll => after deleteAll s
  | CreateOrchestrator now1 now2 u =>
      after (createOrchestrator now1 now2 u) s
  | AddMessage stamp now o r n d => after (addMessage stamp now o r n d) s
  | GetMessages o => after (getMessages o) s
  | FindOrchestratorsByUser u => after (findOrchestratorsByUser u) s
  | GetOrchestratorById o => after (getOrchestratorById o) s
  | GetOrchestratorsByUserId u => after (getOrchestratorsByUserId u) s
  end.

Definition run (history : list Call) (s : MongoDb) : MongoDb :=
  fold_left (fun s c => step c s) history s.

Module Sample.
Definition empty : Database :=
  {| scheduled_tasks := []; task_indexes := [];
     orchestrators := []; orchestrator_indexes := [] |}.

(** A connected object over an empty database; identifiers start at 1. *)
Definition ready : MongoDb := after connect (constructor empty 1%N).

(** One task, not recurring, created at time 10 and due at once. *)
Definition one_task : MongoDb :=
  after (createTask 10 "alice" "tweet" "{}" 10 None) ready.

(** The task has been run to completion at time 30. *)
Definition done_task : MongoDb :=
  after (markCompleted 30 1%N false) (after (markRunning 20 1%N) one_task).

(** The task's handler has failed at time 30. *)
Definition failed_task : MongoDb :=
  after (markCompleted 30 1%N true) (after (markRunning 20 1%N) one_task).

(** A running task whose interval is present and zero. *)
Definition zero_interval : MongoDb :=
  after (markRunning 20 1%N)
    (after (createTask 10 "alice" "tweet" "{}" 10 (Some 0)) ready).

(** A running task that recurs every minute. *)
Definition every_minute : MongoDb :=
  after (markRunning 20 1%N)
    (after (createTask 10 "alice" "tweet" "{}" 10 (Some 60000)) ready).

(** Three pending tasks due at 30, 10 and 20, and one due at 99. *)
Definition four_tasks : MongoDb :=
  after (createTask 4 "bob" "d" "{}" 99 None)
    (after (createTask 3 "bob" "c" "{}" 20 None)
       (after (createTask 2 "alice" "b" "{}" 10 None)
          (after (createTask 1 "alice" "a" "{}" 30 None) ready))).

(** Two sessions of alice, opened at times 100 and 200, and one of bob. *)
Definition three_sessions : MongoDb :=
  after (createOrchestrator 200 200 "alice")
    (after (createOrchestrator 150 150 "bob")
       (after (createOrchestrator 100 100 "alice") ready)).

(** A session holding one message. *)
Definition one_message : MongoDb :=
  after (addMessage 110 111 1%N Input "twitter" "hi")
    (after (createOrchestrator 100 100 "alice") ready).
End Sample.

(* ================================================================== *)
(** * Well-formed stores, effects and outcomes of calls *)

(** Every document of a collection carries an [_id] that the generator
    has already passed. *)
Definition ids_below (A : Type) (id_of : A -> option ObjectId)
  (n : ObjectId) (docs : list A) : Prop :=
  Forall (fun d => exists i, id_of d = Some i /\ (i < n)%N) docs.

(** The store as the driver keeps it: identifiers are present, were
    handed out by the generator, and are distinct within a collection. *)
Definition store_ok (s : MongoDb) : Prop :=
  ids_below task_id (next_ObjectId s) (tasks s) /\
  NoDup (map task_id (tasks s)) /\
  ids_below chat_id (next_ObjectId s) (chats s) /\
  NoDup (map chat_id (chats s)).

(** The fields of a task that no update document of the class mentions. *)
Definition task_identity (t : ScheduledTask) :=
  (task_id t, task_userId t, handlerName t, taskData t, intervalMs t,
   task_createdAt t).

(** What one call does to the documents and to the generator. *)
Inductive Effect (s s' : MongoDb) : Prop :=
| effect_none :
    tasks s' = tasks s -> chats s' = chats s ->
    next_ObjectId s' = next_ObjectId s -> Effect s s'
| effect_task_inserted (t : ScheduledTask) :
    task_id t = Some (next_ObjectId s) ->
    tasks s' = (tasks s ++ [t])%list -> chats s' = chats s ->
    next_ObjectId s' = N.succ (next_ObjectId s) -> Effect s s'
| effect_task_updated (taskId : ObjectId)
    (u : ScheduledTask -> ScheduledTask) :
    (forall t, task_identity (u t) = task_identity t) ->
    tasks s' = Mongo.updateOne (task_id_is taskId) u (tasks s) ->
    chats s' = chats s ->
    next_ObjectId s' = next_ObjectId s -> Effect s s'
| effect_tasks_cleared :
    tasks s' = [] -> chats s' = chats s ->
    next_ObjectId s' = next_ObjectId s -> Effect s s'
| effect_chat_inserted (c : OrchestratorChat) :
    chat_id c = Some (next_ObjectId s) -> messages c = [] ->
    chats s' = (chats s ++ [c])%list -> tasks s' = tasks s ->
    next_ObjectId s' = N.succ (next_ObjectId s) -> Effect s s'
| effect_message_pushed (orchestratorId : ObjectId)
    (m : OrchestratorMessage) (now : Date) :
    chats s'
    = Mongo.updateOne (chat_id_is orchestratorId) (push_message m now)
        (chats s) ->
    tasks s' = tasks s ->
    next_ObjectId s' = next_ObjectId s -> Effect s s'.

(** The error a computation throws, if any. *)
Definition failure {A} (m : M A) (s : MongoDb) : option Error :=
  match m s with
  | Ok _ => None
  | Throw e => Some e
  end.

Definition call_failure (c : Call) (s : MongoDb) : option Error :=
  match c with
  | Connect => failure connect s
  | CreateTask now u h d r i => failure (createTask now u h d r i) s
  | FindDueTasks now limit => failure (findDueTasks now limit) s
  | MarkRunning now taskId => failure (markRunning now taskId) s
  | MarkCompleted now taskId failed =>
      failure (markCompleted now taskId failed) s
  | UpdateNextRun now taskId r => failure (updateNextRun now taskId r) s
  | RescheduleIfRecurring dateNow now task =>
      failure (rescheduleIfRecurring dateNow now task) s
  | DeleteAll => failure deleteAll s
  | CreateOrchestrator now1 now2 u =>
      failure (createOrchestrator now1 now2 u) s
  | AddMessage stamp now o r n d => failure (addMessage stamp now o r n d) s
  | GetMessages o => failure (getMessages o) s
  | FindOrchestratorsByUser u => failure (findOrchestratorsByUser u) s
  | GetOrchestratorById o => failure (getOrchestratorById o) s
  | GetOrchestratorsByUserId u => failure (getOrchestratorsByUserId u) s
  end.

(** The messages that a history of calls pushes on one session. *)
Fixpoint pushed (orchestratorId : ObjectId) (history : list Call)
  : list OrchestratorMessage :=
  match history with
  | [] => []
  | AddMessage stamp _ o r n d :: rest =>
      if N.eqb o orchestratorId
      then {| role := r; name := n; data := d; timestamp := stamp |}
           :: pushed orchestratorId rest
      else pushed orchestratorId rest
  | _ :: rest => pushed orchestratorId rest
  end.

(** Which collection a method writes to. *)
Inductive Kind := Connects | Reads | WritesTasks | WritesSessions.

Definition kind (c : Call) : Kind :=
  match c with
  | Connect => Connects
  | FindDueTasks _ _ | GetMessages _ | FindOrchestratorsByUser _
  | GetOrchestratorById _ | GetOrchestratorsByUserId _ => Reads
  | CreateTask _ _ _ _ _ _ | MarkRunning _ _ | MarkCompleted _ _ _
  | UpdateNextRun _ _ _ | RescheduleIfRecurring _ _ _ | DeleteAll =>
      WritesTasks
  | CreateOrchestrator _ _ _ | AddMessage _ _ _ _ _ _ => WritesSessions
  end.

Definition is_DeleteAll (c : Call) : bool :=
  match c with DeleteAll => true | _ => false end.

(* ================================================================== *)
(** * Facts about the driver *)

Lemma status_eqb_eq a b : status_eqb a b = true <-> a = b.
Proof. destruct a, b; simpl; split; congruence. Qed.

Section CollectionFacts.
Variable D : Type.
Implicit Types (p q : D -> bool) (u : D -> D) (l : list D).

(** An update that keeps the filtered field hits the document that the
    same filter finds. *)
Lemma findOne_updateOne_same p u l :
  (forall d, p (u d) = p d) ->
  Mongo.findOne p (Mongo.updateOne p u l) = option_map u (Mongo.findOne p l).
Proof.
  intros Hkeep. induction l as [|d rest IH]; simpl; [reflexivity|].
  destruct (p d) eqn:Hd; simpl.
  - now rewrite Hkeep, Hd.
  - now rewrite Hd.
Qed.

(** A query that excludes the updated documents does not see the update. *)
Lemma findOne_updateOne_other p q u l :
  (forall d, q (u d) = q d) ->
  (forall d, q d = true -> p d = false) ->
  Mongo.findOne q (Mongo.updateOne p u l) = Mongo.findOne q l.
Proof.
  intros Hkeep Hexcl. induction l as [|d rest IH]; simpl; [reflexivity|].
  destruct (p d) eqn:Hp; simpl.
  - rewrite Hkeep. destruct (q d) eqn:Hq; [|reflexivity].
    apply Hexcl in Hq. congruence.
  - now rewrite IH.
Qed.

Lemma updateOne_length p u l :
  List.length (Mongo.updateOne p u l) = List.length l.
Proof.
  induction l as [|d rest IH]; simpl; [reflexivity|].
  destruct (p d); simpl; congruence.
Qed.

Lemma findOne_none p l :
  Mongo.findOne p l = None <-> (forall d, In d l -> p d = false).
Proof.
  unfold Mongo.findOne. split.
  - intros H d Hin. exact (find_none p l H d Hin).
  - induction l as [|d rest IH]; simpl; intros H; [reflexivity|].
    rewrite (H d (or_introl eq_refl)). apply IH. auto.
Qed.
End CollectionFacts.

Lemma task_id_is_excl taskId other t :
  other <> taskId -> task_id_is other t = true -> task_id_is taskId t = false.
Proof.
  unfold task_id_is. destruct (task_id t) as [i|]; [|discriminate].
  intros Hne Ho. apply N.eqb_eq in Ho. subst i.
  now apply N.eqb_neq.
Qed.

Lemma chat_id_is_excl orchestratorId other c :
  other <> orchestratorId ->
  chat_id_is other c = true -> chat_id_is orchestratorId c = false.
Proof.
  unfold chat_id_is. destruct (chat_id c) as [i|]; [|discriminate].
  intros Hne Ho. apply N.eqb_eq in Ho. subst i.
  now apply N.eqb_neq.
Qed.

(** ** What an update of one task by [_id] does to the store *)

Lemma update_by_id_runs (u : ScheduledTask -> ScheduledTask) taskId s :
  collection s = true ->
  (this_collection ;;; tasks_write (Mongo.updateOne (task_id_is taskId) u)) s
  = Ok (tt, after_tasks_write (Mongo.updateOne (task_id_is taskId) u) s).
Proof.
  intros Hc. unfold bind, this_collection. rewrite Hc. reflexivity.
Qed.

Lemma update_by_id_lookup (u : ScheduledTask -> ScheduledTask) taskId s :
  (forall i d, task_id_is i (u d) = task_id_is i d) ->
  let s' := after_tasks_write (Mongo.updateOne (task_id_is taskId) u) s in
  lookup_task taskId s' = option_map u (lookup_task taskId s) /\
  (forall other, other <> taskId -> lookup_task other s' = lookup_task other s) /\
  chats s' = chats s /\
  List.length (tasks s') = List.length (tasks s).
Proof.
  intros Hkeep s'. unfold lookup_task, s'. simpl. repeat split.
  - unfold tasks at 1. simpl. now apply findOne_updateOne_same.
  - intros other Hne. unfold tasks at 1. simpl.
    apply findOne_updateOne_other; [now auto|].
    intros d. now apply task_id_is_excl.
  - unfold tasks at 1. simpl. apply updateOne_length.
Qed.

(* ================================================================== *)
(** * The task store *)

(** C1, as the code has it: [markRunning] is not conditional.  For every
    stored task, whatever its current status (pending included), the call
    returns no value, sets the status to running and [updatedAt] to the
    current time, keeps every other field, and leaves every other task
    and every session as it was. *)
Theorem markRunning_sets_running
  (now : Date) (taskId : ObjectId) (s : MongoDb) (t : ScheduledTask) :
  collection s = true ->
  lookup_task taskId s = Some t ->
  exists s' t',
    markRunning now taskId s = Ok (tt, s') /\
    lookup_task taskId s' = Some t' /\
    status t' = Running /\
    task_updatedAt t' = now /\
    (task_id t', task_userId t', handlerName t', taskData t',
     nextRunAt t', intervalMs t', task_createdAt t')
    = (task_id t, task_userId t, handlerName t, taskData t,
       nextRunAt t, intervalMs t, task_createdAt t) /\
    (forall other, other <> taskId ->
       lookup_task other s' = lookup_task other s) /\
    chats s' = chats s.
Proof.
  intros Hc Ht.
  destruct (update_by_id_lookup (set_status Running now) taskId s)
    as (Hsame & Hother & Hchats & _); [reflexivity|].
  eexists; exists (set_status Running now t).
  split; [unfold markRunning; now apply update_by_id_runs|].
  rewrite Hsame, Ht. repeat split; assumption.
Qed.

Lemma markRunning_sets_running_witness :
  exists s' t',
    markRunning 20 1%N Sample.one_task = Ok (tt, s') /\
    lookup_task 1%N s' = Some t' /\
    status t' = Running /\
    task_updatedAt t' = 20 /\
    (task_id t', task_userId t', handlerName t', taskData t',
     nextRunAt t', intervalMs t', task_createdAt t')
    = (Some 1%N, "alice", "tweet", "{}", 10, None, 10) /\
    (forall other, other <> 1%N ->
       lookup_task other s' = lookup_task other Sample.one_task) /\
    chats s' = chats Sample.one_task.
Proof.
  exact (markRunning_sets_running 20 1%N Sample.one_task
           (t := {| task_id := Some 1%N; task_userId := "alice";
                    handlerName := "tweet"; taskData := "{}";
                    nextRunAt := 10; intervalMs := None; status := Pending;
                    task_createdAt := 10; task_updatedAt := 10 |})
           eq_refl eq_refl).
Defined.

(** C1 as stated fails: a task that has already completed is not left
    unchanged by [markRunning]; it is set running again. *)
Lemma markRunning_reclaims_completed_task :
  option_map status (lookup_task 1%N Sample.done_task) = Some Completed /\
  exists s',
    markRunning 40 1%N Sample.done_task = Ok (tt, s') /\
    option_map status (lookup_task 1%N s') = Some Running /\
    lookup_task 1%N s' <> lookup_task 1%N Sample.done_task.
Proof.
  split; [reflexivity|].
  eexists. split; [reflexivity|]. split; [reflexivity|].
  vm_compute. discriminate.
Qed.

Lemma markCompleted_lookup
  (now : Date) (taskId : ObjectId) (failed : bool)
  (s : MongoDb) (t : ScheduledTask) :
  collection s = true ->
  lookup_task taskId s = Some t ->
  exists s',
    markCompleted now taskId failed s = Ok (tt, s') /\
    lookup_task taskId s'
    = Some (set_status (if failed then Failed else Completed) now t) /\
    (forall other, other <> taskId ->
       lookup_task other s' = lookup_task other s) /\
    chats s' = chats s.
Proof.
  intros Hc Ht.
  destruct (update_by_id_lookup
              (set_status (if failed then Failed else Completed) now) taskId s)
    as (Hsame & Hother & Hchats & _); [reflexivity|].
  eexists.
  split; [unfold markCompleted; now apply update_by_id_runs|].
  rewrite Hsame, Ht. repeat split; assumption.
Qed.

(** C5, as the code has it: [markCompleted] is not guarded by the current
    status.  For every stored task, terminal or not, the call sets the
    status to failed or completed according to its flag and [updatedAt]
    to the current time, and keeps every other field, every other task
    and every session.  A repeated call with the same flag therefore
    keeps the status and refreshes [updatedAt]. *)
Theorem markCompleted_overwrites_status
  (now : Date) (taskId : ObjectId) (failed : bool)
  (s : MongoDb) (t : ScheduledTask) :
  collection s = true ->
  lookup_task taskId s = Some t ->
  exists s' t',
    markCompleted now taskId failed s = Ok (tt, s') /\
    lookup_task taskId s' = Some t' /\
    status t' = (if failed then Failed else Completed) /\
    task_updatedAt t' = now /\
    (task_id t', task_userId t', handlerName t', taskData t',
     nextRunAt t', intervalMs t', task_createdAt t')
    = (task_id t, task_userId t, handlerName t, taskData t,
       nextRunAt t, intervalMs t, task_createdAt t) /\
    (forall other, other <> taskId ->
       lookup_task other s' = lookup_task other s) /\
    chats s' = chats s.
Proof.
  intros Hc Ht.
  destruct (markCompleted_lookup now taskId failed s Hc Ht)
    as (s' & Hrun & Hl & Ho & Hchats).
  exists s', (set_status (if failed then Failed else Completed) now t).
  now repeat split.
Qed.

Lemma markCompleted_overwrites_status_witness :
  exists s' t',
    markCompleted 40 1%N true Sample.done_task = Ok (tt, s') /\
    lookup_task 1%N s' = Some t' /\
    status t' = Failed /\
    task_updatedAt t' = 40 /\
    (task_id t', task_userId t', handlerName t', taskData t',
     nextRunAt t', intervalMs t', task_createdAt t')
    = (Some 1%N, "alice", "tweet", "{}", 10, None, 10) /\
    (forall other, other <> 1%N ->
       lookup_task other s' = lookup_task other Sample.done_task) /\
    chats s' = chats Sample.done_task.
Proof.
  exact (markCompleted_overwrites_status 40 1%N true Sample.done_task
           (t := {| task_id := Some 1%N; task_userId := "alice";
                    handlerName := "tweet"; taskData := "{}";
                    nextRunAt := 10; intervalMs := None; status := Completed;
                    task_createdAt := 10; task_updatedAt := 30 |})
           eq_refl eq_refl).
Defined.

(** C5 as stated fails: [markCompleted] on a task that has already failed
    is not a no-op; the task leaves the failed state for completed and its
    [updatedAt] moves. *)
Lemma markCompleted_leaves_failed_state :
  option_map status (lookup_task 1%N Sample.failed_task) = Some Failed /\
  option_map task_updatedAt (lookup_task 1%N Sample.failed_task) = Some 30 /\
  exists s',
    markCompleted 40 1%N false Sample.failed_task = Ok (tt, s') /\
    option_map status (lookup_task 1%N s') = Some Completed /\
    option_map task_updatedAt (lookup_task 1%N s') = Some 40.
Proof.
  split; [reflexivity|]. split; [reflexivity|].
  eexists. repeat split; reflexivity.
Qed.

(** ** Recurrence *)

Lemma updateNextRun_lookup
  (now : Date) (taskId : ObjectId) (newRunTime : Date)
  (s : MongoDb) (t : ScheduledTask) :
  collection s = true ->
  lookup_task taskId s = Some t ->
  exists s',
    updateNextRun now taskId newRunTime s = Ok (tt, s') /\
    lookup_task taskId s' = Some (set_pending_at newRunTime now t) /\
    (forall other, other <> taskId ->
       lookup_task other s' = lookup_task other s) /\
    chats s' = chats s.
Proof.
  intros Hc Ht.
  destruct (update_by_id_lookup (set_pending_at newRunTime now) taskId s)
    as (Hsame & Hother & Hchats & _); [reflexivity|].
  eexists.
  split; [unfold updateNextRun; now apply update_by_id_runs|].
  rewrite Hsame, Ht. repeat split; assumption.
Qed.

(** C3, as the code has it: the recurrence test is [!task.intervalMs].
    For a task object whose [_id] names a stored task: when [intervalMs]
    is unset or zero the stored task is marked completed and keeps its
    [nextRunAt]; when [intervalMs] is set and not zero, and the reading
    of [Date.now()] plus [intervalMs] is a valid time value, the stored
    task goes back to pending with [nextRunAt] equal to that sum.
    Either way [updatedAt] is refreshed and the other tasks are
    untouched. *)
Theorem rescheduleIfRecurring_policy
  (dateNow : Z) (now : Date) (task : ScheduledTask) (taskId : ObjectId)
  (s : MongoDb) (t : ScheduledTask) :
  collection s = true ->
  task_id task = Some taskId ->
  lookup_task taskId s = Some t ->
  (forall i, intervalMs task = Some i -> i <> 0 ->
             valid_time (dateNow + i)) ->
  exists s' t',
    rescheduleIfRecurring dateNow now task s = Ok (tt, s') /\
    lookup_task taskId s' = Some t' /\
    task_updatedAt t' = now /\
    match intervalMs task with
    | None | Some 0 => status t' = Completed /\ nextRunAt t' = nextRunAt t
    | Some i =>
        status t' = Pending /\ nextRunAt t' = dateNow + i /\
        valid_time (nextRunAt t')
    end /\
    (forall other, other <> taskId ->
       lookup_task other s' = lookup_task other s).
Proof.
  intros Hc Hid Ht Hrange. unfold rescheduleIfRecurring, not_intervalMs.
  rewrite Hid.
  destruct (intervalMs task) as [i|].
  - destruct (Z.eqb_spec i 0) as [->|Hnz].
    + destruct (markCompleted_lookup now taskId false s Hc Ht)
        as (s' & Hrun & Hl & Ho & _).
      exists s', (set_status Completed now t). now repeat split.
    + destruct (updateNextRun_lookup now taskId (dateNow + i) s Hc Ht)
        as (s' & Hrun & Hl & Ho & _).
      exists s', (set_pending_at (dateNow + i) now t).
      repeat split; try assumption.
      specialize (Hrange i eq_refl Hnz).
      destruct i; try congruence;
        (split; [reflexivity|split; [reflexivity|exact Hrange]]).
  - destruct (markCompleted_lookup now taskId false s Hc Ht)
      as (s' & Hrun & Hl & Ho & _).
    exists s', (set_status Completed now t). now repeat split.
Qed.

Lemma rescheduleIfRecurring_policy_witness :
  exists s' t',
    rescheduleIfRecurring 1700000000000 1700000000001
      {| task_id := Some 1%N; task_userId := "alice";
         handlerName := "tweet"; taskData := "{}";
         nextRunAt := 10; intervalMs := Some 60000; status := Running;
         task_createdAt := 10; task_updatedAt := 20 |}
      Sample.every_minute = Ok (tt, s') /\
    lookup_task 1%N s' = Some t' /\
    task_updatedAt t' = 1700000000001 /\
    (status t' = Pending /\ nextRunAt t' = 1700000000000 + 60000 /\
     valid_time (nextRunAt t')) /\
    (forall other, other <> 1%N ->
       lookup_task other s' = lookup_task other Sample.every_minute).
Proof.
  apply (rescheduleIfRecurring_policy 1700000000000 1700000000001
           {| task_id := Some 1%N; task_userId := "alice";
              handlerName := "tweet"; taskData := "{}";
              nextRunAt := 10; intervalMs := Some 60000; status := Running;
              task_createdAt := 10; task_updatedAt := 20 |}
           (taskId := 1%N) Sample.every_minute
           (t := {| task_id := Some 1%N; task_userId := "alice";
                    handlerName := "tweet"; taskData := "{}";
                    nextRunAt := 10; intervalMs := Some 60000;
                    status := Running;
                    task_createdAt := 10; task_updatedAt := 20 |})
           eq_refl eq_refl eq_refl).
  intros i Hi _. cbn [intervalMs] in Hi. injection Hi as <-.
  unfold valid_time. split; discriminate.
Defined.

(** C3 as stated fails: a task whose [intervalMs] is set, to zero, is not
    put back to pending; it is marked completed. *)
Lemma rescheduleIfRecurring_completes_set_interval :
  let task := {| task_id := Some 1%N; task_userId := "alice";
                 handlerName := "tweet"; taskData := "{}";
                 nextRunAt := 10; intervalMs := Some 0; status := Running;
                 task_createdAt := 10; task_updatedAt := 20 |} in
  lookup_task 1%N Sample.zero_interval = Some task /\
  intervalMs task <> None /\
  exists s',
    rescheduleIfRecurring 40 41 task Sample.zero_interval = Ok (tt, s') /\
    option_map status (lookup_task 1%N s') = Some Completed /\
    option_map status (lookup_task 1%N s') <> Some Pending.
Proof.
  split; [reflexivity|]. split; [discriminate|].
  eexists. split; [reflexivity|]. split; [reflexivity|].
  vm_compute. discriminate.
Qed.

(** C10: a task whose [intervalMs] is present and equal to 0 is treated
    as not recurring, because the test is the truthiness of [intervalMs]:
    [rescheduleIfRecurring] does exactly what [markCompleted] without
    failure does, so the stored task ends completed, not pending, with
    its [nextRunAt] as it was. *)
Theorem rescheduleIfRecurring_zero_interval
  (dateNow : Z) (now : Date) (task : ScheduledTask) (taskId : ObjectId)
  (s : MongoDb) (t : ScheduledTask) :
  intervalMs task = Some 0 ->
  collection s = true ->
  task_id task = Some taskId ->
  lookup_task taskId s = Some t ->
  not_intervalMs task = true /\
  rescheduleIfRecurring dateNow now task s = markCompleted now taskId false s /\
  exists s' t',
    rescheduleIfRecurring dateNow now task s = Ok (tt, s') /\
    lookup_task taskId s' = Some t' /\
    status t' = Completed /\
    status t' <> Pending /\
    nextRunAt t' = nextRunAt t.
Proof.
  intros Hz Hc Hid Ht.
  assert (Hn : not_intervalMs task = true)
    by (unfold not_intervalMs; now rewrite Hz).
  assert (Heq : rescheduleIfRecurring dateNow now task s
                = markCompleted now taskId false s)
    by (unfold rescheduleIfRecurring; now rewrite Hn, Hid).
  split; [exact Hn|]. split; [exact Heq|].
  destruct (markCompleted_lookup now taskId false s Hc Ht)
    as (s' & Hrun & Hl & _).
  exists s', (set_status Completed now t).
  rewrite Heq. repeat split; try assumption. simpl. discriminate.
Qed.

Lemma rescheduleIfRecurring_zero_interval_witness :
  let task := {| task_id := Some 1%N; task_userId := "alice";
                 handlerName := "tweet"; taskData := "{}";
                 nextRunAt := 10; intervalMs := Some 0; status := Running;
                 task_createdAt := 10; task_updatedAt := 20 |} in
  not_intervalMs task = true /\
  rescheduleIfRecurring 40 41 task Sample.zero_interval
  = markCompleted 41 1%N false Sample.zero_interval /\
  exists s' t',
    rescheduleIfRecurring 40 41 task Sample.zero_interval = Ok (tt, s') /\
    lookup_task 1%N s' = Some t' /\
    status t' = Completed /\
    status t' <> Pending /\
    nextRunAt t' = 10.
Proof.
  intros task.
  exact (rescheduleIfRecurring_zero_interval 40 41 task (taskId := 1%N)
           Sample.zero_interval (t := task)
           eq_refl eq_refl eq_refl eq_refl).
Defined.

(** ** Task creation *)

(** C2, as the code has it: [createTask] validates nothing.  On a
    connected object, for every handler name (the empty one included),
    every due date and every interval, the call returns the fresh
    identifier and the tasks collection gains, in last position, one task
    with that identifier, status pending, the given fields, and both
    audit dates equal to the current time. *)
Theorem createTask_inserts_pending
  (now : Date) (userId handlerName0 : string) (taskData0 : Payload)
  (nextRunAt0 : Date) (intervalMs0 : option Z) (s : MongoDb) :
  collection s = true ->
  exists s' t,
    createTask now userId handlerName0 taskData0 nextRunAt0 intervalMs0 s
    = Ok (next_ObjectId s, s') /\
    tasks s' = (tasks s ++ [t])%list /\
    status t = Pending /\
    task_id t = Some (next_ObjectId s) /\
    (task_userId t, handlerName t, taskData t, nextRunAt t, intervalMs t)
    = (userId, handlerName0, taskData0, nextRunAt0, intervalMs0) /\
    task_createdAt t = now /\
    task_updatedAt t = now /\
    chats s' = chats s.
Proof.
  intros Hc. unfold createTask, bind, this_collection. rewrite Hc.
  do 2 eexists. split; [reflexivity|]. simpl.
  repeat split; reflexivity.
Qed.

Lemma createTask_inserts_pending_witness :
  exists s' t,
    createTask 10 "alice" "tweet" "{}" 10 None Sample.ready
    = Ok (1%N, s') /\
    tasks s' = ([] ++ [t])%list /\
    status t = Pending /\
    task_id t = Some 1%N /\
    (task_userId t, handlerName t, taskData t, nextRunAt t, intervalMs t)
    = ("alice", "tweet", "{}", 10, None) /\
    task_createdAt t = 10 /\
    task_updatedAt t = 10 /\
    chats s' = [].
Proof.
  exact (createTask_inserts_pending 10 "alice" "tweet" "{}" 10 None
           Sample.ready eq_refl).
Defined.

(** C2 as stated fails: an empty handler name is not rejected; the call
    returns an identifier and the task is stored, pending. *)
Lemma createTask_accepts_empty_handlerName :
  exists s',
    createTask 10 "alice" "" "{}" 10 None Sample.ready = Ok (1%N, s') /\
    tasks s' = [ {| task_id := Some 1%N; task_userId := "alice";
                    handlerName := ""; taskData := "{}";
                    nextRunAt := 10; intervalMs := None; status := Pending;
                    task_createdAt := 10; task_updatedAt := 10 |} ].
Proof. eexists. split; reflexivity. Qed.

(** ** Sorted cursors *)

Section SortFacts.
Variable D : Type.
Variable key : D -> Z.
Variable direction : Z.

Lemma before_total a b :
  Mongo.before key direction a b = false -> Mongo.in_order key direction b a.
Proof.
  unfold Mongo.in_order, Mongo.before.
  destruct (direction =? 1); intros H;
    apply Z.leb_gt in H; apply Z.leb_le; lia.
Qed.

Lemma before_trans a b c :
  Mongo.in_order key direction a b ->
  Mongo.in_order key direction b c ->
  Mongo.in_order key direction a c.
Proof.
  unfold Mongo.in_order, Mongo.before.
  destruct (direction =? 1); intros H1 H2;
    apply Z.leb_le in H1; apply Z.leb_le in H2; apply Z.leb_le; lia.
Qed.

Lemma place_perm d l :
  Permutation (d :: l) (Mongo.place key direction d l).
Proof.
  induction l as [|e rest IH]; simpl; [reflexivity|].
  destruct (Mongo.before key direction d e); [reflexivity|].
  rewrite perm_swap. now constructor.
Qed.

Lemma sort_perm l : Permutation l (Mongo.sort key direction l).
Proof.
  unfold Mongo.sort. induction l as [|d rest IH]; simpl; [constructor|].
  rewrite <- place_perm. now constructor.
Qed.

Lemma place_sorted d l :
  StronglySorted (Mongo.in_order key direction) l ->
  StronglySorted (Mongo.in_order key direction) (Mongo.place key direction d l).
Proof.
  induction 1 as [|e rest Hs IH Hall]; simpl.
  - repeat constructor.
  - destruct (Mongo.before key direction d e) eqn:Hde.
    + constructor; [now constructor|].
      constructor; [exact Hde|].
      eapply Forall_impl; [|exact Hall].
      intros x Hx. eapply before_trans; [exact Hde|exact Hx].
    + constructor; [exact IH|].
      eapply Permutation_Forall; [apply place_perm|].
      constructor; [now apply before_total|exact Hall].
Qed.

Lemma sort_sorted l :
  StronglySorted (Mongo.in_order key direction) (Mongo.sort key direction l).
Proof.
  unfold Mongo.sort. induction l as [|d rest IH]; simpl.
  - constructor.
  - now apply place_sorted.
Qed.
End SortFacts.

Lemma StronglySorted_app_inv (A : Type) (R : A -> A -> Prop) (l1 l2 : list A) :
  StronglySorted R (l1 ++ l2)%list ->
  StronglySorted R l1 /\
  Forall (fun late => Forall (fun early => R early late) l1) l2.
Proof.
  induction l1 as [|a l1 IH]; simpl; intros H.
  - split; [constructor|]. apply Forall_forall. intros; constructor.
  - apply StronglySorted_inv in H. destruct H as [Hs Hall].
    destruct (IH Hs) as [Hs1 Hcross].
    apply Forall_app in Hall. destruct Hall as [Hall1 Hall2].
    split; [now constructor|].
    rewrite Forall_forall in *. intros late Hin.
    constructor; [now apply Hall2|now apply Hcross].
Qed.

Lemma limit_split (A : Type) (n : Z) (l : list A) :
  exists rest, l = (Mongo.limit n l ++ rest)%list.
Proof.
  unfold Mongo.limit. destruct (n =? 0).
  - exists []. now rewrite app_nil_r.
  - exists (skipn (Z.abs_nat n) l). symmetry. apply firstn_skipn.
Qed.


Lemma StronglySorted_weaken (A : Type) (R R' : A -> A -> Prop) (l : list A) :
  (forall a b, R a b -> R' a b) ->
  StronglySorted R l -> StronglySorted R' l.
Proof.
  intros Himp. induction 1 as [|a l Hs IH Hall]; constructor.
  - exact IH.
  - eapply Forall_impl; [|exact Hall]. intros b. apply Himp.
Qed.

Lemma is_due_spec now t :
  is_due now t = true <-> status t = Pending /\ nextRunAt t <= now.
Proof.
  unfold is_due. rewrite andb_true_iff, status_eqb_eq, Z.leb_le. tauto.
Qed.

(** The cursor of a sorted, limited query: a sorted prefix of a
    rearrangement of the matching documents. *)
Lemma sorted_limited_cursor (A : Type) (key : A -> Z) (direction n : Z)
  (p : A -> bool) (docs : list A) :
  let r := Mongo.toArray
             (Mongo.limit n (Mongo.sort key direction (Mongo.find p docs))) in
  StronglySorted (fun a b => Mongo.before key direction a b = true) r /\
  exists rest,
    Permutation (r ++ rest) (filter p docs) /\
    Forall (fun late =>
              Forall (fun early => Mongo.before key direction early late = true)
                r) rest.
Proof.
  intros r. unfold r, Mongo.toArray, Mongo.find.
  set (sorted := Mongo.sort key direction (filter p docs)).
  destruct (limit_split n sorted) as [rest Hsplit].
  assert (Hs : StronglySorted
                 (fun a b => Mongo.before key direction a b = true)
                 (Mongo.limit n sorted ++ rest))
    by (rewrite <- Hsplit; apply sort_sorted).
  apply StronglySorted_app_inv in Hs. destruct Hs as [Hs Hcross].
  split; [exact Hs|]. exists rest. split; [|exact Hcross].
  rewrite <- Hsplit. symmetry. apply sort_perm.
Qed.




(* ================================================================== *)
(** * The conversation log *)

Lemma addMessage_lookup
  (stamp now : Date) (orchestratorId : ObjectId)
  (role0 : HandlerRole) (name0 : string) (data0 : Payload)
  (s : MongoDb) (c : OrchestratorChat) :
  orchestratorCollection s = true ->
  lookup_chat orchestratorId s = Some c ->
  let m := {| role := role0; name := name0;
              data := data0; timestamp := stamp |} in
  let s' := after_chats_write
              (Mongo.updateOne (chat_id_is orchestratorId)
                 (push_message m now)) s in
  addMessage stamp now orchestratorId role0 name0 data0 s = Ok (tt, s') /\
  orchestratorCollection s' = true /\
  lookup_chat orchestratorId s' = Some (push_message m now c) /\
  (forall other, other <> orchestratorId ->
     lookup_chat other s' = lookup_chat other s) /\
  List.length (chats s') = List.length (chats s) /\
  tasks s' = tasks s.
Proof.
  intros Hc Hl m s'.
  split.
  { unfold addMessage, bind, this_orchestratorCollection. rewrite Hc.
    reflexivity. }
  split; [exact Hc|].
  unfold lookup_chat in *.
  split.
  { unfold s', chats at 1. simpl.
    rewrite findOne_updateOne_same by reflexivity. now rewrite Hl. }
  split.
  { intros other Hne. unfold s', chats at 1. simpl.
    apply findOne_updateOne_other; [reflexivity|].
    intros d. now apply chat_id_is_excl. }
  split; [|reflexivity].
  unfold s', chats at 1. simpl. apply updateOne_length.
Qed.

(** C6: for every stored session, [addMessage] puts exactly one message,
    stamped with the clock, after the messages the session already has,
    and sets the session's [updatedAt] from the clock.  The earlier
    messages keep their content and their positions, the session keeps
    its identity, and no other session and no task is touched. *)
Theorem addMessage_appends_one
  (stamp now : Date) (orchestratorId : ObjectId)
  (role0 : HandlerRole) (name0 : string) (data0 : Payload)
  (s : MongoDb) (c : OrchestratorChat) :
  orchestratorCollection s = true ->
  lookup_chat orchestratorId s = Some c ->
  exists s' c',
    addMessage stamp now orchestratorId role0 name0 data0 s = Ok (tt, s') /\
    lookup_chat orchestratorId s' = Some c' /\
    messages c'
    = (messages c ++ [ {| role := role0; name := name0;
                          data := data0; timestamp := stamp |} ])%list /\
    (forall i m, nth_error (messages c) i = Some m ->
                 nth_error (messages c') i = Some m) /\
    chat_updatedAt c' = now /\
    (chat_id c', chat_userId c', chat_createdAt c')
    = (chat_id c, chat_userId c, chat_createdAt c) /\
    (forall other, other <> orchestratorId ->
       lookup_chat other s' = lookup_chat other s) /\
    List.length (chats s') = List.length (chats s) /\
    tasks s' = tasks s.
Proof.
  intros Hc Hl.
  destruct (addMessage_lookup stamp now orchestratorId role0 name0 data0
              s Hc Hl) as (Hrun & _ & Hl' & Hother & Hlen & Htasks).
  do 2 eexists. split; [exact Hrun|]. split; [exact Hl'|].
  split; [reflexivity|].
  split.
  { intros i x Hx. simpl. rewrite nth_error_app1; [exact Hx|].
    apply nth_error_Some. congruence. }
  now repeat split.
Qed.

Lemma addMessage_appends_one_witness :
  exists s' c',
    addMessage 120 121 1%N Output "reply" "hello" Sample.one_message
    = Ok (tt, s') /\
    lookup_chat 1%N s' = Some c' /\
    messages c'
    = ([ {| role := Input; name := "twitter";
            data := "hi"; timestamp := 110 |} ]
       ++ [ {| role := Output; name := "reply";
               data := "hello"; timestamp := 120 |} ])%list /\
    (forall i m,
       nth_error [ {| role := Input; name := "twitter";
                      data := "hi"; timestamp := 110 |} ] i = Some m ->
       nth_error (messages c') i = Some m) /\
    chat_updatedAt c' = 121 /\
    (chat_id c', chat_userId c', chat_createdAt c')
    = (Some 1%N, "alice", 100) /\
    (forall other, other <> 1%N ->
       lookup_chat other s' = lookup_chat other Sample.one_message) /\
    List.length (chats s') = List.length (chats Sample.one_message) /\
    tasks s' = tasks Sample.one_message.
Proof.
  exact (addMessage_appends_one 120 121 1%N Output "reply" "hello"
           Sample.one_message
           (c := {| chat_id := Some 1%N; chat_userId := "alice";
                    chat_createdAt := 100; chat_updatedAt := 111;
                    messages := [ {| role := Input; name := "twitter";
                                     data := "hi"; timestamp := 110 |} ] |})
           eq_refl eq_refl).
Defined.

(** ** Queries by identifier *)

Section UniqueIds.
Variable D : Type.
Variable id_of : D -> option ObjectId.
Variable id_is : ObjectId -> D -> bool.
Hypothesis id_is_spec :
  forall i d, id_is i d = true <-> id_of d = Some i.

(** With distinct identifiers, a stored document is the one that a query
    by its identifier finds. *)
Lemma findOne_unique (i : ObjectId) (x : D) (l : list D) :
  NoDup (map id_of l) ->
  In x l -> id_of x = Some i ->
  Mongo.findOne (id_is i) l = Some x.
Proof.
  unfold Mongo.findOne.
  induction l as [|d rest IH]; simpl; intros Hnd Hin Hx; [contradiction|].
  inversion Hnd as [|? ? Hnotin Hnd' Heq]; subst.
  destruct (id_is i d) eqn:Hd.
  - destruct Hin as [->|Hin]; [reflexivity|].
    exfalso. apply Hnotin. apply id_is_spec in Hd. rewrite Hd, <- Hx.
    now apply in_map.
  - destruct Hin as [->|Hin]; [|now apply IH].
    apply id_is_spec in Hx. congruence.
Qed.
End UniqueIds.

Lemma task_id_is_spec i t : task_id_is i t = true <-> task_id t = Some i.
Proof.
  unfold task_id_is. destruct (task_id t) as [j|].
  - rewrite N.eqb_eq. split; congruence.
  - split; discriminate.
Qed.

Lemma chat_id_is_spec i c : chat_id_is i c = true <-> chat_id c = Some i.
Proof.
  unfold chat_id_is. destruct (chat_id c) as [j|].
  - rewrite N.eqb_eq. split; congruence.
  - split; discriminate.
Qed.

(** C7: on a connected object whose sessions have distinct identifiers,
    [getMessages] returns, without error and without changing the
    database, the whole message sequence, in stored order, of the stored
    session that has the identifier, and the empty sequence when no
    stored session has it.  Read after an [addMessage] on a stored
    session, it returns the earlier messages followed by the new one. *)
Theorem getMessages_log_or_empty (orchestratorId : ObjectId) (s : MongoDb) :
  orchestratorCollection s = true ->
  NoDup (map chat_id (chats s)) ->
  exists s',
    database s' = database s /\
    (forall c, In c (chats s) -> chat_id c = Some orchestratorId ->
       getMessages orchestratorId s = Ok (messages c, s')) /\
    ((forall c, In c (chats s) -> chat_id c <> Some orchestratorId) ->
     getMessages orchestratorId s = Ok ([], s')) /\
    (forall stamp now role0 name0 data0 c,
       In c (chats s) -> chat_id c = Some orchestratorId ->
       eval (addMessage stamp now orchestratorId role0 name0 data0 ;;;
             getMessages orchestratorId) s
       = Some (messages c ++ [ {| role := role0; name := name0;
                                  data := data0; timestamp := stamp |} ])%list).
Proof.
  intros Hc Hnd.
  assert (Hrun : forall s0, orchestratorCollection s0 = true ->
            getMessages orchestratorId s0
            = Ok (match lookup_chat orchestratorId s0 with
                  | Some c => messages c
                  | None => []
                  end,
                  after_read s0)).
  { intros s0 H0.
    unfold getMessages, bind, this_orchestratorCollection. rewrite H0.
    unfold lookup_chat, chats, orchestrators_read, bind. simpl.
    now destruct (Mongo.findOne (chat_id_is orchestratorId)
                    (orchestrators (database s0))). }
  assert (Hfound : forall c, In c (chats s) ->
            chat_id c = Some orchestratorId ->
            lookup_chat orchestratorId s = Some c).
  { intros c Hin Hid. unfold lookup_chat.
    exact (@findOne_unique _ chat_id chat_id_is chat_id_is_spec
             orchestratorId c (chats s) Hnd Hin Hid). }
  exists (after_read s).
  split; [reflexivity|]. split; [|split].
  - intros c Hin Hid. rewrite Hrun by assumption.
    now rewrite (Hfound c Hin Hid).
  - intros Hnone. rewrite Hrun by assumption.
    replace (lookup_chat orchestratorId s) with (@None OrchestratorChat);
      [reflexivity|].
    symmetry. apply findOne_none. intros d Hin.
    specialize (Hnone d Hin). unfold chat_id_is.
    destruct (chat_id d) as [i|]; [|reflexivity].
    apply N.eqb_neq. congruence.
  - intros stamp now role0 name0 data0 c Hin Hid.
    pose proof (Hfound c Hin Hid) as Hl.
    destruct (addMessage_lookup stamp now orchestratorId
                role0 name0 data0 s Hc Hl) as (Hadd & Hc1 & Hl1 & _).
    unfold eval, bind. rewrite Hadd, Hrun by assumption.
    now rewrite Hl1.
Qed.

Lemma getMessages_log_or_empty_witness :
  exists s',
    database s' = database Sample.one_message /\
    getMessages 1%N Sample.one_message
    = Ok ([ {| role := Input; name := "twitter";
               data := "hi"; timestamp := 110 |} ], s') /\
    eval (addMessage 120 121 1%N Output "reply" "hello" ;;;
          getMessages 1%N) Sample.one_message
    = Some [ {| role := Input; name := "twitter";
                data := "hi"; timestamp := 110 |};
             {| role := Output; name := "reply";
                data := "hello"; timestamp := 120 |} ].
Proof.
  assert (Hnd : NoDup (map chat_id (chats Sample.one_message)))
    by (simpl; repeat constructor; simpl; tauto).
  destruct (getMessages_log_or_empty 1%N Sample.one_message eq_refl Hnd)
    as (s' & Hdb & Hfound & _ & Hadd).
  exists s'. split; [exact Hdb|]. split.
  - apply (Hfound {| chat_id := Some 1%N; chat_userId := "alice";
                     chat_createdAt := 100; chat_updatedAt := 111;
                     messages := [ {| role := Input; name := "twitter";
                                      data := "hi"; timestamp := 110 |} ] |});
      [simpl; left; reflexivity|reflexivity].
  - apply (Hadd 120 121 Output "reply" "hello"
             {| chat_id := Some 1%N; chat_userId := "alice";
                chat_createdAt := 100; chat_updatedAt := 111;
                messages := [ {| role := Input; name := "twitter";
                                 data := "hi"; timestamp := 110 |} ] |});
      [simpl; left; reflexivity|reflexivity].
Defined.

(** ** Sessions of a user *)

Lemma chat_of_user_spec userId c :
  chat_of_user userId c = true <-> chat_userId c = userId.
Proof. unfold chat_of_user. apply String.eqb_eq. Qed.

(** C8, as the code has it: of the two methods that list the sessions of
    a user, [getOrchestratorsByUserId] returns exactly the stored sessions
    of that user ordered newest first by [createdAt];
    [findOrchestratorsByUser] returns the same sessions, unsorted, in the
    order in which they are stored. *)
Theorem sessions_of_user_sorted_and_unsorted (userId : string) (s : MongoDb) :
  orchestratorCollection s = true ->
  exists newest_first stored_order s1 s2,
    getOrchestratorsByUserId userId s = Ok (newest_first, s1) /\
    findOrchestratorsByUser userId s = Ok (stored_order, s2) /\
    database s1 = database s /\
    database s2 = database s /\
    stored_order = filter (chat_of_user userId) (chats s) /\
    Permutation newest_first stored_order /\
    StronglySorted newer_or_same newest_first /\
    (forall c, In c newest_first <->
               In c (chats s) /\ chat_userId c = userId).
Proof.
  intros Hc.
  unfold getOrchestratorsByUserId, findOrchestratorsByUser, bind,
    this_orchestratorCollection.
  rewrite Hc.
  unfold orchestrators_read, bind, this_client_connect, set_client.
  do 4 eexists. split; [reflexivity|]. split; [reflexivity|].
  simpl database. fold (chats s). unfold Mongo.toArray, Mongo.find.
  split; [reflexivity|]. split; [reflexivity|]. split; [reflexivity|].
  assert (Hperm : Permutation
                    (Mongo.sort chat_createdAt (-1)
                       (filter (chat_of_user userId) (chats s)))
                    (filter (chat_of_user userId) (chats s)))
    by (symmetry; apply sort_perm).
  split; [exact Hperm|]. split.
  - eapply StronglySorted_weaken; [|apply sort_sorted].
    intros a b H. apply Z.leb_le in H. exact H.
  - intros c. rewrite <- chat_of_user_spec, <- filter_In.
    split; intros H.
    + eapply Permutation_in; [exact Hperm|exact H].
    + eapply Permutation_in; [symmetry; exact Hperm|exact H].
Qed.

Lemma sessions_of_user_sorted_and_unsorted_witness :
  exists newest_first stored_order s1 s2,
    getOrchestratorsByUserId "alice" Sample.three_sessions
    = Ok (newest_first, s1) /\
    findOrchestratorsByUser "alice" Sample.three_sessions
    = Ok (stored_order, s2) /\
    database s1 = database Sample.three_sessions /\
    database s2 = database Sample.three_sessions /\
    stored_order
    = filter (chat_of_user "alice") (chats Sample.three_sessions) /\
    Permutation newest_first stored_order /\
    StronglySorted newer_or_same newest_first /\
    (forall c, In c newest_first <->
               In c (chats Sample.three_sessions) /\ chat_userId c = "alice").
Proof.
  exact (sessions_of_user_sorted_and_unsorted "alice" Sample.three_sessions
           eq_refl).
Defined.

(** C8 as stated fails for [findOrchestratorsByUser]: alice's session
    opened at time 100 comes before her session opened at time 200. *)
Lemma findOrchestratorsByUser_oldest_first :
  exists r s',
    findOrchestratorsByUser "alice" Sample.three_sessions = Ok (r, s') /\
    map chat_createdAt r = [100; 200] /\
    ~ StronglySorted newer_or_same r.
Proof.
  do 2 eexists. split; [reflexivity|]. split; [reflexivity|].
  intros H. apply StronglySorted_inv in H. destruct H as [_ H].
  apply Forall_inv in H. unfold newer_or_same in H. simpl in H. lia.
Qed.

(* ================================================================== *)
(** * The connection *)

Lemma index_eqb_refl ix : Mongo.index_eqb ix ix = true.
Proof.
  unfold Mongo.index_eqb. now rewrite String.eqb_refl, Z.eqb_refl.
Qed.

Lemma createIndex_has ix l :
  existsb (Mongo.index_eqb ix) (Mongo.createIndex ix l) = true.
Proof.
  unfold Mongo.createIndex.
  destruct (existsb (Mongo.index_eqb ix) l) eqn:H; [exact H|].
  rewrite existsb_app. simpl. now rewrite index_eqb_refl, orb_true_r.
Qed.

Lemma createIndex_keeps ix iy l :
  existsb (Mongo.index_eqb ix) l = true ->
  existsb (Mongo.index_eqb ix) (Mongo.createIndex iy l) = true.
Proof.
  intros H. unfold Mongo.createIndex.
  destruct (existsb (Mongo.index_eqb iy) l); [exact H|].
  rewrite existsb_app, H. reflexivity.
Qed.

Lemma createIndex_present ix l :
  existsb (Mongo.index_eqb ix) l = true -> Mongo.createIndex ix l = l.
Proof. intros H. unfold Mongo.createIndex. now rewrite H. Qed.

(** [connect] on an object that is connected, holds both handles and has
    the three indexes changes nothing. *)
Lemma connect_when_ready s :
  Mongo.topology_connected (client s) = true ->
  collection s = true ->
  orchestratorCollection s = true ->
  existsb (Mongo.index_eqb ("nextRunAt", 1)) (task_indexes (database s))
  = true ->
  existsb (Mongo.index_eqb ("status", 1)) (task_indexes (database s))
  = true ->
  existsb (Mongo.index_eqb ("userId", 1)) (orchestrator_indexes (database s))
  = true ->
  connect s = Ok (tt, s).
Proof.
  destruct s as [[conn n opened] col ocol fresh [ts tix os oix]]. simpl.
  intros -> -> -> H1 H2 H3.
  destruct (Nat.eqb n 0) eqn:Hn; cbv -[Mongo.createIndex Nat.eqb];
    rewrite Hn;
    rewrite (createIndex_present _ _ H1), (createIndex_present _ _ H2),
      (createIndex_present _ _ H3); reflexivity.
Qed.

(** [connect] always returns, and leaves the object ready. *)
Lemma connect_runs (s : MongoDb) :
  exists s1,
  connect s = Ok (tt, s1) /\
  Mongo.topology_connected (client s1) = true /\
  Mongo.connections_opened (client s1)
  = (if Mongo.topology_connected (client s)
     then Mongo.connections_opened (client s)
     else S (Mongo.connections_opened (client s))) /\
  collection s1 = true /\
  orchestratorCollection s1 = true /\
  existsb (Mongo.index_eqb ("nextRunAt", 1))
    (task_indexes (database s1)) = true /\
  existsb (Mongo.index_eqb ("status", 1))
    (task_indexes (database s1)) = true /\
  existsb (Mongo.index_eqb ("userId", 1))
    (orchestrator_indexes (database s1)) = true /\
  tasks s1 = tasks s /\ chats s1 = chats s.
Proof.
  destruct s as [[conn n opened] col ocol fresh [ts tix os oix]].
  destruct (Nat.eqb n 0) eqn:Hn; destruct conn;
    cbv -[Mongo.createIndex Nat.eqb existsb Mongo.index_eqb];
    rewrite Hn;
    (eexists; split; [reflexivity|];
     repeat split;
     first [ apply createIndex_has
           | apply createIndex_keeps; apply createIndex_has ]).
Qed.

(** C9: [connect] always returns, and a second [connect] on the object it
    leaves behind changes nothing at all: the client stays connected and
    no further connection is opened, the handles and the indexes are the
    same, and so is every document. *)
Theorem connect_idempotent (s : MongoDb) :
  exists s1,
    connect s = Ok (tt, s1) /\
    connect s1 = Ok (tt, s1) /\
    (connect ;;; connect) s = connect s /\
    Mongo.topology_connected (client s1) = true /\
    Mongo.connections_opened (client s1)
    = (if Mongo.topology_connected (client s)
       then Mongo.connections_opened (client s)
       else S (Mongo.connections_opened (client s))) /\
    collection s1 = true /\
    orchestratorCollection s1 = true /\
    tasks s1 = tasks s /\
    chats s1 = chats s.
Proof.
  destruct (connect_runs s) as (s1 & Hrun & Hconn & Hopened & Hcol & Hocol
                    & H1 & H2 & H3 & Htasks & Hchats).
  assert (Hagain : connect s1 = Ok (tt, s1))
    by now apply connect_when_ready.
  exists s1. repeat split; try assumption.
  unfold bind. now rewrite Hrun, Hagain.
Qed.

(* ================================================================== *)
(** * The log is append-only along every history *)

Lemma findOne_insertOne (D : Type) (p : D -> bool) (d x : D) (l : list D) :
  Mongo.findOne p l = Some d -> Mongo.findOne p (Mongo.insertOne x l) = Some d.
Proof.
  unfold Mongo.findOne, Mongo.insertOne.
  induction l as [|e rest IH]; simpl; [discriminate|].
  destruct (p e); [trivial|exact IH].
Qed.

(** What a call can do to the sessions: nothing, add a new session after
    the stored ones, or push one message on one session. *)
Lemma step_chats (c : Call) (s : MongoDb) :
  chats (step c s) = chats s \/
  (exists x, chats (step c s) = Mongo.insertOne x (chats s)) \/
  (exists o m now,
     chats (step c s)
     = Mongo.updateOne (chat_id_is o) (push_message m now) (chats s)).
Proof.
  destruct c; unfold step, after.
  - destruct (connect_runs s) as (s1 & -> & _ & _ & _ & _ & _ & _ & _ & _ & H).
    now left.
  - left. unfold createTask, bind, this_collection.
    destruct (collection s); reflexivity.
  - left. unfold findDueTasks. destruct (collection s); reflexivity.
  - left. unfold markRunning, bind, this_collection.
    destruct (collection s); reflexivity.
  - left. unfold markCompleted, bind, this_collection.
    destruct (collection s); reflexivity.
  - left. unfold updateNextRun, bind, this_collection.
    destruct (collection s); reflexivity.
  - left. unfold rescheduleIfRecurring, markCompleted, updateNextRun,
      update_nothing, bind, this_collection.
    destruct (not_intervalMs task), (task_id task), (collection s);
      reflexivity.
  - left. unfold deleteAll, bind, this_collection.
    destruct (collection s); reflexivity.
  - unfold createOrchestrator, bind, this_orchestratorCollection.
    destruct (orchestratorCollection s); [|now left].
    right; left. eexists. reflexivity.
  - unfold addMessage, bind, this_orchestratorCollection.
    destruct (orchestratorCollection s); [|now left].
    right; right. do 3 eexists. reflexivity.
  - left. unfold getMessages, bind, this_orchestratorCollection.
    destruct (orchestratorCollection s); [|reflexivity].
    unfold orchestrators_read, bind. simpl.
    now destruct (Mongo.findOne (chat_id_is orchestratorId)
                    (orchestrators (database s))).
  - left. unfold findOrchestratorsByUser, bind, this_orchestratorCollection.
    destruct (orchestratorCollection s); reflexivity.
  - left. unfold getOrchestratorById, bind, this_orchestratorCollection.
    destruct (orchestratorCollection s); reflexivity.
  - now left.
Qed.

Lemma step_append_only (c : Call) (s : MongoDb) orchestratorId chat :
  lookup_chat orchestratorId s = Some chat ->
  exists chat' more,
    lookup_chat orchestratorId (step c s) = Some chat' /\
    messages chat' = (messages chat ++ more)%list.
Proof.
  intros Hl. unfold lookup_chat in *.
  destruct (step_chats c s) as [-> | [[x ->] | (o & m & now & ->)]].
  - exists chat, []. now rewrite app_nil_r.
  - exists chat, []. rewrite app_nil_r. split; [|reflexivity].
    now apply findOne_insertOne.
  - destruct (N.eq_dec orchestratorId o) as [<-|Hne].
    + exists (push_message m now chat), [m]. split; [|reflexivity].
      rewrite findOne_updateOne_same by reflexivity. now rewrite Hl.
    + exists chat, []. rewrite app_nil_r. split; [|reflexivity].
      rewrite findOne_updateOne_other; [exact Hl|reflexivity|].
      intros d. now apply chat_id_is_excl.
Qed.

(** Along every history of calls a stored session stays stored and its
    message sequence only grows at the end. *)
Lemma messages_append_only (history : list Call) (s : MongoDb)
  orchestratorId chat :
  lookup_chat orchestratorId s = Some chat ->
  exists chat' more,
    lookup_chat orchestratorId (run history s) = Some chat' /\
    messages chat' = (messages chat ++ more)%list.
Proof.
  revert s chat. unfold run.
  induction history as [|c rest IH]; intros s chat Hl; simpl.
  - exists chat, []. now rewrite app_nil_r.
  - destruct (step_append_only c s orchestratorId Hl)
      as (chat1 & more1 & Hl1 & Hm1).
    destruct (IH _ _ Hl1) as (chat2 & more2 & Hl2 & Hm2).
    exists chat2, (more1 ++ more2)%list. split; [exact Hl2|].
    now rewrite Hm2, Hm1, app_assoc.
Qed.

(* ================================================================== *)
(** * Effects of the methods, one call at a time *)

Lemma updateOne_no_match (D : Type) (p : D -> bool) (u : D -> D)
  (l : list D) :
  (forall d, In d l -> p d = false) -> Mongo.updateOne p u l = l.
Proof.
  induction l as [|d rest IH]; simpl; intros H; [reflexivity|].
  rewrite (H d (or_introl eq_refl)). f_equal. apply IH. auto.
Qed.

Lemma connect_keeps_generator (s : MongoDb) :
  next_ObjectId (after connect s) = next_ObjectId s.
Proof.
  destruct s as [[conn n opened] col ocol fresh [ts tix os oix]].
  unfold after.
  destruct (Nat.eqb n 0) eqn:Hn; destruct conn;
    cbv -[Mongo.createIndex Nat.eqb N.succ]; rewrite Hn; reflexivity.
Qed.

Ltac with_handle h :=
  unfold bind, this_collection, this_orchestratorCollection;
  destruct h eqn:?.

Ltac handles_kept :=
  split; intros ?; simpl; first [assumption | reflexivity | congruence].

Ltac no_effect :=
  split; [apply effect_none; reflexivity | handles_kept].

Lemma step_effect (c : Call) (s : MongoDb) :
  Effect s (step c s) /\
  (collection s = true -> collection (step c s) = true) /\
  (orchestratorCollection s = true ->
   orchestratorCollection (step c s) = true).
Proof.
  destruct c; unfold step.
  - pose proof (connect_keeps_generator s) as Hgen. unfold after in *.
    destruct (connect_runs s)
      as (s1 & Hrun & _ & _ & Hc & Ho & _ & _ & _ & Ht & Hch).
    rewrite Hrun in *. split; [now apply effect_none|]. now split.
  - unfold after, createTask. with_handle (collection s); [|no_effect].
    split; [|handles_kept].
    eapply effect_task_inserted with (t := with_task_id _ _); reflexivity.
  - unfold after, findDueTasks.
    destruct (collection s) eqn:Hc; simpl; no_effect.
  - unfold after, markRunning. with_handle (collection s); [|no_effect].
    split; [|handles_kept].
    eapply effect_task_updated with (u := set_status Running now);
      reflexivity.
  - unfold after, markCompleted. with_handle (collection s); [|no_effect].
    split; [|handles_kept].
    eapply effect_task_updated with (u := set_status _ now); reflexivity.
  - unfold after, updateNextRun. with_handle (collection s); [|no_effect].
    split; [|handles_kept].
    eapply effect_task_updated with (u := set_pending_at _ now);
      reflexivity.
  - unfold after, rescheduleIfRecurring, markCompleted, updateNextRun,
      update_nothing.
    destruct (not_intervalMs task), (task_id task);
      (with_handle (collection s); [|no_effect]);
      (split; [|handles_kept]);
      try (eapply effect_task_updated with (u := set_status _ now);
           reflexivity);
      try (eapply effect_task_updated with (u := set_pending_at _ now);
           reflexivity);
      (apply effect_none; try reflexivity;
       unfold tasks; simpl; apply updateOne_no_match; trivial).
  - unfold after, deleteAll. with_handle (collection s); [|no_effect].
    split; [|handles_kept]. now apply effect_tasks_cleared.
  - unfold after, createOrchestrator.
    with_handle (orchestratorCollection s); [|no_effect].
    split; [|handles_kept].
    eapply effect_chat_inserted
      with (c := with_chat_id (next_ObjectId s)
                   {| chat_id := None; chat_userId := userId;
                      chat_createdAt := now1; chat_updatedAt := now2;
                      messages := [] |});
      reflexivity.
  - unfold after, addMessage.
    with_handle (orchestratorCollection s); [|no_effect].
    split; [|handles_kept]. eapply effect_message_pushed; reflexivity.
  - unfold after, getMessages.
    with_handle (orchestratorCollection s); [|no_effect].
    unfold orchestrators_read, bind. simpl.
    destruct (Mongo.findOne (chat_id_is orchestratorId)
                (orchestrators (database s))); no_effect.
  - unfold after, findOrchestratorsByUser.
    with_handle (orchestratorCollection s); no_effect.
  - unfold after, getOrchestratorById.
    with_handle (orchestratorCollection s); no_effect.
  - unfold after, getOrchestratorsByUserId. simpl. no_effect.
Qed.

(* ================================================================== *)
(** * Identifiers *)

Section IdFacts.
Variable D : Type.
Variable id_of : D -> option ObjectId.

Lemma map_id_updateOne (p : D -> bool) (u : D -> D) (l : list D) :
  (forall d, id_of (u d) = id_of d) ->
  map id_of (Mongo.updateOne p u l) = map id_of l.
Proof.
  intros Hid. induction l as [|d rest IH]; simpl; [reflexivity|].
  destruct (p d); simpl; [now rewrite Hid|now rewrite IH].
Qed.

Lemma ids_below_updateOne (p : D -> bool) (u : D -> D) n (l : list D) :
  (forall d, id_of (u d) = id_of d) ->
  ids_below id_of n l -> ids_below id_of n (Mongo.updateOne p u l).
Proof.
  intros Hid. unfold ids_below. induction 1 as [|d rest Hd Hrest IH]; simpl.
  - constructor.
  - destruct (p d); constructor; trivial. now rewrite Hid.
Qed.

Lemma ids_below_succ n (l : list D) :
  ids_below id_of n l -> ids_below id_of (N.succ n) l.
Proof.
  unfold ids_below. intros H. eapply Forall_impl; [|exact H].
  intros d (i & Hi & Hlt). exists i. split; [exact Hi|lia].
Qed.

Lemma ids_below_not_in n (l : list D) :
  ids_below id_of n l -> ~ In (Some n) (map id_of l).
Proof.
  unfold ids_below. intros H Hin. apply in_map_iff in Hin.
  destruct Hin as (d & Hd & Hin).
  rewrite Forall_forall in H. destruct (H d Hin) as (i & Hi & Hlt).
  rewrite Hi in Hd. injection Hd as ->. lia.
Qed.

Lemma ids_insertOne n (x : D) (l : list D) :
  id_of x = Some n ->
  ids_below id_of n l -> NoDup (map id_of l) ->
  ids_below id_of (N.succ n) (Mongo.insertOne x l) /\
  NoDup (map id_of (Mongo.insertOne x l)).
Proof.
  intros Hx Hbelow Hnodup. unfold Mongo.insertOne. split.
  - apply Forall_app. split; [now apply ids_below_succ|].
    constructor; [|constructor]. exists n. split; [exact Hx|lia].
  - rewrite map_app. simpl. rewrite Hx.
    apply NoDup_app; [exact Hnodup|repeat constructor; auto|].
    intros a Ha [<-|[]]. now apply (ids_below_not_in Hbelow).
Qed.
End IdFacts.

Lemma task_identity_id (u : ScheduledTask -> ScheduledTask) :
  (forall t, task_identity (u t) = task_identity t) ->
  forall t, task_id (u t) = task_id t.
Proof. intros H t. specialize (H t). unfold task_identity in H. congruence. Qed.

Lemma store_ok_effect (s s' : MongoDb) :
  Effect s s' -> store_ok s -> store_ok s'.
Proof.
  unfold store_ok.
  intros [Ht Hc Hn | t Hid Ht Hc Hn | taskId u Hu Ht Hc Hn | Ht Hc Hn
         | c Hid _ Hc Ht Hn | o m now Hc Ht Hn] (T1 & T2 & C1 & C2);
    rewrite Ht, Hc, Hn.
  - auto.
  - destruct (@ids_insertOne _ task_id _ t _ Hid T1 T2) as [A B].
    repeat split; trivial. now apply ids_below_succ.
  - pose proof (task_identity_id u Hu) as Hid.
    repeat split; trivial.
    + now apply ids_below_updateOne.
    + now rewrite map_id_updateOne.
  - repeat split; trivial; constructor.
  - destruct (@ids_insertOne _ chat_id _ c _ Hid C1 C2) as [A B].
    repeat split; trivial. now apply ids_below_succ.
  - repeat split; trivial.
    + now apply ids_below_updateOne.
    + now rewrite map_id_updateOne.
Qed.

(** Well-formedness of a concrete store, by evaluation. *)
Ltac store_ok_by_evaluation :=
  unfold store_ok, ids_below; simpl;
  repeat split;
  repeat (constructor; simpl);
  try (eexists; split; reflexivity);
  try (intuition discriminate).

(** X3: along every history of calls the store stays well formed: every
    task and every session has an identifier handed out by the generator,
    and identifiers are distinct within each collection. *)
Theorem store_ok_run (history : list Call) (s : MongoDb) :
  store_ok s -> store_ok (run history s).
Proof.
  revert s. unfold run.
  induction history as [|c rest IH]; intros s Hok; simpl; [exact Hok|].
  apply IH. eapply store_ok_effect; [|exact Hok]. apply step_effect.
Qed.

Lemma store_ok_run_witness :
  store_ok
    (run [ CreateTask 10 "alice" "tweet" "{}" 10 None;
           CreateOrchestrator 11 11 "alice";
           MarkRunning 12 1%N;
           CreateTask 13 "bob" "mail" "{}" 20 (Some 5);
           AddMessage 14 14 2%N Input "twitter" "hi";
           DeleteAll;
           CreateTask 15 "bob" "mail" "{}" 30 None ]
       Sample.ready).
Proof.
  apply store_ok_run. store_ok_by_evaluation.
Defined.

(* ================================================================== *)
(** * Insert, then look up *)

Lemma findOne_insertOne_fresh (D : Type) (p : D -> bool) (x : D)
  (l : list D) :
  Mongo.findOne p l = None ->
  Mongo.findOne p (Mongo.insertOne x l) = if p x then Some x else None.
Proof.
  unfold Mongo.findOne, Mongo.insertOne.
  induction l as [|e rest IH]; simpl; [reflexivity|].
  destruct (p e); [discriminate|exact IH].
Qed.

Lemma findOne_insertOne_other (D : Type) (p : D -> bool) (x : D)
  (l : list D) :
  p x = false ->
  Mongo.findOne p (Mongo.insertOne x l) = Mongo.findOne p l.
Proof.
  intros Hx. unfold Mongo.findOne, Mongo.insertOne.
  induction l as [|e rest IH]; simpl; [now rewrite Hx|].
  destruct (p e); [reflexivity|exact IH].
Qed.

Lemma lookup_task_fresh (s : MongoDb) :
  store_ok s -> lookup_task (next_ObjectId s) s = None.
Proof.
  intros (T1 & _). apply findOne_none. intros d Hin.
  unfold ids_below in T1. rewrite Forall_forall in T1.
  destruct (T1 d Hin) as (i & Hi & Hlt).
  unfold task_id_is. rewrite Hi. apply N.eqb_neq. lia.
Qed.

Lemma lookup_chat_fresh (s : MongoDb) :
  store_ok s -> lookup_chat (next_ObjectId s) s = None.
Proof.
  intros (_ & _ & C1 & _). apply findOne_none. intros d Hin.
  unfold ids_below in C1. rewrite Forall_forall in C1.
  destruct (C1 d Hin) as (i & Hi & Hlt).
  unfold chat_id_is. rewrite Hi. apply N.eqb_neq. lia.
Qed.

Lemma getOrchestratorById_eval (orchestratorId : ObjectId) (s : MongoDb) :
  orchestratorCollection s = true ->
  eval (getOrchestratorById orchestratorId) s
  = Some (lookup_chat orchestratorId s).
Proof.
  intros Hc. unfold eval, getOrchestratorById, bind,
    this_orchestratorCollection.
  now rewrite Hc.
Qed.

Lemma getMessages_eval (orchestratorId : ObjectId) (s : MongoDb) :
  orchestratorCollection s = true ->
  eval (getMessages orchestratorId) s
  = Some (match lookup_chat orchestratorId s with
          | Some c => messages c
          | None => []
          end).
Proof.
  intros Hc. unfold eval, getMessages, bind, this_orchestratorCollection.
  rewrite Hc. unfold lookup_chat, chats, orchestrators_read, bind. simpl.
  now destruct (Mongo.findOne (chat_id_is orchestratorId)
                  (orchestrators (database s))).
Qed.

(** X4: on a connected, well-formed store the identifier that
    [createTask] returns named no task before the call, names the new
    pending task afterwards, and every other identifier still names what
    it named before. *)
Theorem createTask_then_lookup
  (now : Date) (userId handlerName0 : string) (taskData0 : Payload)
  (nextRunAt0 : Date) (intervalMs0 : option Z) (s : MongoDb) :
  collection s = true ->
  store_ok s ->
  exists s',
    createTask now userId handlerName0 taskData0 nextRunAt0 intervalMs0 s
    = Ok (next_ObjectId s, s') /\
    lookup_task (next_ObjectId s) s = None /\
    lookup_task (next_ObjectId s) s'
    = Some {| task_id := Some (next_ObjectId s);
              task_userId := userId;
              handlerName := handlerName0;
              taskData := taskData0;
              nextRunAt := nextRunAt0;
              intervalMs := intervalMs0;
              status := Pending;
              task_createdAt := now;
              task_updatedAt := now |} /\
    (forall other, other <> next_ObjectId s ->
       lookup_task other s' = lookup_task other s).
Proof.
  intros Hc Hok. pose proof (lookup_task_fresh Hok) as Hfresh.
  unfold createTask, bind, this_collection. rewrite Hc.
  eexists. split; [reflexivity|]. split; [exact Hfresh|].
  unfold lookup_task in *. unfold tasks at 1 3. simpl. split.
  - rewrite findOne_insertOne_fresh by exact Hfresh.
    unfold task_id_is. simpl. now rewrite N.eqb_refl.
  - intros other Hne. apply findOne_insertOne_other.
    unfold task_id_is. simpl. apply N.eqb_neq. congruence.
Qed.

Lemma createTask_then_lookup_witness :
  exists s',
    createTask 10 "alice" "tweet" "{}" 10 (Some 60000) Sample.one_task
    = Ok (2%N, s') /\
    lookup_task 2%N Sample.one_task = None /\
    lookup_task 2%N s'
    = Some {| task_id := Some 2%N;
              task_userId := "alice";
              handlerName := "tweet";
              taskData := "{}";
              nextRunAt := 10;
              intervalMs := Some 60000;
              status := Pending;
              task_createdAt := 10;
              task_updatedAt := 10 |} /\
    (forall other, other <> 2%N ->
       lookup_task other s' = lookup_task other Sample.one_task).
Proof.
  apply (createTask_then_lookup 10 "alice" "tweet" "{}" 10 (Some 60000)
           (s := Sample.one_task) eq_refl).
  store_ok_by_evaluation.
Defined.

(** X5: on a connected, well-formed store the identifier that
    [createOrchestrator] returns named no session before the call;
    afterwards [getOrchestratorById] returns the new session, owned by
    the user, stamped with the two clock readings and without messages,
    [getMessages] returns the empty sequence, and every other identifier
    still names what it named before. *)
Theorem createOrchestrator_then_read
  (now1 now2 : Date) (userId : string) (s : MongoDb) :
  orchestratorCollection s = true ->
  store_ok s ->
  exists s',
    createOrchestrator now1 now2 userId s = Ok (next_ObjectId s, s') /\
    eval (getOrchestratorById (next_ObjectId s)) s = Some None /\
    eval (getOrchestratorById (next_ObjectId s)) s'
    = Some (Some {| chat_id := Some (next_ObjectId s);
                    chat_userId := userId;
                    chat_createdAt := now1;
                    chat_updatedAt := now2;
                    messages := [] |}) /\
    eval (getMessages (next_ObjectId s)) s' = Some [] /\
    (forall other, other <> next_ObjectId s ->
       lookup_chat other s' = lookup_chat other s).
Proof.
  intros Hc Hok. pose proof (lookup_chat_fresh Hok) as Hfresh.
  set (c := {| chat_id := Some (next_ObjectId s); chat_userId := userId;
               chat_createdAt := now1; chat_updatedAt := now2;
               messages := [] |}).
  set (s' := after (createOrchestrator now1 now2 userId) s).
  assert (Hrun : createOrchestrator now1 now2 userId s
                 = Ok (next_ObjectId s, s')).
  { unfold s', after, createOrchestrator, bind,
      this_orchestratorCollection. now rewrite Hc. }
  assert (Hc' : orchestratorCollection s' = true).
  { unfold s', after, createOrchestrator, bind,
      this_orchestratorCollection. now rewrite Hc. }
  assert (Hchats : chats s' = Mongo.insertOne c (chats s)).
  { unfold s', after, createOrchestrator, bind,
      this_orchestratorCollection. now rewrite Hc. }
  assert (Hnew : lookup_chat (next_ObjectId s) s' = Some c).
  { unfold lookup_chat in *. rewrite Hchats.
    rewrite findOne_insertOne_fresh by exact Hfresh.
    unfold chat_id_is. simpl. now rewrite N.eqb_refl. }
  exists s'. split; [exact Hrun|].
  split; [now rewrite getOrchestratorById_eval, Hfresh|].
  split; [now rewrite getOrchestratorById_eval, Hnew|].
  split; [now rewrite getMessages_eval, Hnew|].
  intros other Hne. unfold lookup_chat. rewrite Hchats.
  apply findOne_insertOne_other.
  unfold chat_id_is. simpl. apply N.eqb_neq. congruence.
Qed.

Lemma createOrchestrator_then_read_witness :
  exists s',
    createOrchestrator 300 301 "carol" Sample.three_sessions
    = Ok (4%N, s') /\
    eval (getOrchestratorById 4%N) Sample.three_sessions = Some None /\
    eval (getOrchestratorById 4%N) s'
    = Some (Some {| chat_id := Some 4%N;
                    chat_userId := "carol";
                    chat_createdAt := 300;
                    chat_updatedAt := 301;
                    messages := [] |}) /\
    eval (getMessages 4%N) s' = Some [] /\
    (forall other, other <> 4%N ->
       lookup_chat other s' = lookup_chat other Sample.three_sessions).
Proof.
  apply (createOrchestrator_then_read 300 301 "carol"
           (s := Sample.three_sessions) eq_refl).
  store_ok_by_evaluation.
Defined.

(* ================================================================== *)
(** * The log of a session is the history of its appends *)

Lemma step_chats_other (c : Call) (s : MongoDb) :
  match c with
  | AddMessage _ _ _ _ _ _ => True
  | _ => chats (step c s) = chats s \/
         exists x, chats (step c s) = Mongo.insertOne x (chats s)
  end.
Proof.
  destruct c; trivial; unfold step.
  - unfold after.
    destruct (connect_runs s) as (s1 & -> & _ & _ & _ & _ & _ & _ & _ & _ & H).
    now left.
  - left. unfold after, createTask. with_handle (collection s); reflexivity.
  - left. unfold after, findDueTasks. destruct (collection s); reflexivity.
  - left. unfold after, markRunning.
    with_handle (collection s); reflexivity.
  - left. unfold after, markCompleted.
    with_handle (collection s); reflexivity.
  - left. unfold after, updateNextRun.
    with_handle (collection s); reflexivity.
  - left. unfold after, rescheduleIfRecurring, markCompleted, updateNextRun,
      update_nothing.
    destruct (not_intervalMs task), (task_id task);
      with_handle (collection s); reflexivity.
  - left. unfold after, deleteAll. with_handle (collection s); reflexivity.
  - unfold after, createOrchestrator.
    with_handle (orchestratorCollection s); [|now left].
    right. eexists. reflexivity.
  - left. unfold after, getMessages.
    with_handle (orchestratorCollection s); [|reflexivity].
    unfold orchestrators_read, bind. simpl.
    now destruct (Mongo.findOne (chat_id_is orchestratorId)
                    (orchestrators (database s))).
  - left. unfold after, findOrchestratorsByUser.
    with_handle (orchestratorCollection s); reflexivity.
  - left. unfold after, getOrchestratorById.
    with_handle (orchestratorCollection s); reflexivity.
  - now left.
Qed.

Lemma pushed_cons (orchestratorId : ObjectId) (c : Call)
  (rest : list Call) :
  pushed orchestratorId (c :: rest)
  = (pushed orchestratorId [c] ++ pushed orchestratorId rest)%list.
Proof.
  destruct c; simpl; try reflexivity.
  now destruct (N.eqb orchestratorId0 orchestratorId).
Qed.

Lemma step_log (c : Call) (s : MongoDb) orchestratorId chat :
  orchestratorCollection s = true ->
  lookup_chat orchestratorId s = Some chat ->
  exists chat',
    lookup_chat orchestratorId (step c s) = Some chat' /\
    messages chat' = (messages chat ++ pushed orchestratorId [c])%list /\
    (chat_id chat', chat_userId chat', chat_createdAt chat')
    = (chat_id chat, chat_userId chat, chat_createdAt chat).
Proof.
  intros Hc Hl.
  assert (Hsame : chats (step c s) = chats s \/
                  (exists x, chats (step c s) = Mongo.insertOne x (chats s)) ->
                  pushed orchestratorId [c] = [] ->
                  exists chat',
                    lookup_chat orchestratorId (step c s) = Some chat' /\
                    messages chat'
                    = (messages chat ++ pushed orchestratorId [c])%list /\
                    (chat_id chat', chat_userId chat', chat_createdAt chat')
                    = (chat_id chat, chat_userId chat, chat_createdAt chat)).
  { intros Hch ->. exists chat. rewrite app_nil_r.
    split; [|now split]. unfold lookup_chat in *.
    destruct Hch as [-> | [x ->]]; [exact Hl|].
    now apply findOne_insertOne. }
  pose proof (step_chats_other c s) as Hother.
  destruct c; try (apply Hsame; [exact Hother|reflexivity]).
  clear Hsame Hother.
  set (m := {| role := role0; name := name0;
               data := data0; timestamp := stamp |}).
  assert (Hch : chats (step (AddMessage stamp now orchestratorId0
                              role0 name0 data0) s)
                = Mongo.updateOne (chat_id_is orchestratorId0)
                    (push_message m now) (chats s)).
  { unfold step, after, addMessage, bind, this_orchestratorCollection.
    now rewrite Hc. }
  unfold lookup_chat in *. rewrite Hch. simpl. fold m.
  destruct (N.eqb_spec orchestratorId0 orchestratorId) as [->|Hne].
  - exists (push_message m now chat).
    rewrite findOne_updateOne_same by reflexivity. rewrite Hl.
    now repeat split.
  - exists chat. rewrite app_nil_r. split; [|now split].
    rewrite findOne_updateOne_other; [exact Hl|reflexivity|].
    intros d. apply chat_id_is_excl. congruence.
Qed.

(** X6: once the session handle is assigned, along every history of
    calls a stored session stays stored with its identifier, owner and
    creation date, and its log is exactly its earlier log followed by the
    messages of the history's [addMessage] calls on it, in call order:
    nothing is lost, duplicated or reordered, and [getMessages] returns
    that sequence. *)
Theorem log_is_history_of_appends
  (history : list Call) (s : MongoDb)
  (orchestratorId : ObjectId) (chat : OrchestratorChat) :
  orchestratorCollection s = true ->
  lookup_chat orchestratorId s = Some chat ->
  exists chat',
    lookup_chat orchestratorId (run history s) = Some chat' /\
    messages chat'
    = (messages chat ++ pushed orchestratorId history)%list /\
    (chat_id chat', chat_userId chat', chat_createdAt chat')
    = (chat_id chat, chat_userId chat, chat_createdAt chat) /\
    eval (getMessages orchestratorId) (run history s)
    = Some (messages chat ++ pushed orchestratorId history)%list.
Proof.
  revert s chat. unfold run.
  induction history as [|c rest IH]; intros s chat Hc Hl.
  - simpl. exists chat. rewrite app_nil_r.
    repeat split; trivial. now rewrite getMessages_eval, Hl.
  - destruct (@step_log c s orchestratorId chat Hc Hl)
      as (chat1 & Hl1 & Hm1 & Hi1).
    assert (Hc1 : orchestratorCollection (step c s) = true)
      by now apply step_effect.
    destruct (IH _ _ Hc1 Hl1) as (chat2 & Hl2 & Hm2 & Hi2 & Hget).
    exists chat2. simpl fold_left.
    rewrite pushed_cons, app_assoc, <- Hm1.
    repeat split; trivial. congruence.
Qed.

Lemma log_is_history_of_appends_witness :
  exists chat',
    lookup_chat 1%N
      (run [ AddMessage 120 121 1%N Output "reply" "hello";
             CreateOrchestrator 130 130 "bob";
             AddMessage 140 141 2%N Input "mail" "other";
             GetMessages 1%N;
             AddMessage 150 151 1%N Action "tweet" "sent" ]
         Sample.one_message) = Some chat' /\
    messages chat'
    = ([ {| role := Input; name := "twitter";
            data := "hi"; timestamp := 110 |} ]
       ++ [ {| role := Output; name := "reply";
               data := "hello"; timestamp := 120 |};
            {| role := Action; name := "tweet";
               data := "sent"; timestamp := 150 |} ])%list /\
    (chat_id chat', chat_userId chat', chat_createdAt chat')
    = (Some 1%N, "alice", 100) /\
    eval (getMessages 1%N)
      (run [ AddMessage 120 121 1%N Output "reply" "hello";
             CreateOrchestrator 130 130 "bob";
             AddMessage 140 141 2%N Input "mail" "other";
             GetMessages 1%N;
             AddMessage 150 151 1%N Action "tweet" "sent" ]
         Sample.one_message)
    = Some ([ {| role := Input; name := "twitter";
                 data := "hi"; timestamp := 110 |} ]
            ++ [ {| role := Output; name := "reply";
                    data := "hello"; timestamp := 120 |};
                 {| role := Action; name := "tweet";
                    data := "sent"; timestamp := 150 |} ])%list.
Proof.
  exact (log_is_history_of_appends
           [ AddMessage 120 121 1%N Output "reply" "hello";
             CreateOrchestrator 130 130 "bob";
             AddMessage 140 141 2%N Input "mail" "other";
             GetMessages 1%N;
             AddMessage 150 151 1%N Action "tweet" "sent" ]
           Sample.one_message 1%N
           (chat := {| chat_id := Some 1%N; chat_userId := "alice";
                       chat_createdAt := 100; chat_updatedAt := 111;
                       messages := [ {| role := Input; name := "twitter";
                                        data := "hi"; timestamp := 110 |} ] |})
           eq_refl eq_refl).
Defined.

(* ================================================================== *)
(** * Errors and silent calls *)

Lemma call_failure_with_handles (c : Call) (s : MongoDb) :
  collection s = true ->
  orchestratorCollection s = true ->
  call_failure c s = None.
Proof.
  intros Hc Ho.
  destruct c; unfold call_failure, failure.
  - now destruct (connect_runs s) as (s1 & -> & _).
  - unfold createTask, bind, this_collection. now rewrite Hc.
  - unfold findDueTasks. now rewrite Hc.
  - unfold markRunning, bind, this_collection. now rewrite Hc.
  - unfold markCompleted, bind, this_collection. now rewrite Hc.
  - unfold updateNextRun, bind, this_collection. now rewrite Hc.
  - unfold rescheduleIfRecurring, markCompleted, updateNextRun,
      update_nothing, bind, this_collection.
    destruct (not_intervalMs task), (task_id task); now rewrite Hc.
  - unfold deleteAll, bind, this_collection. now rewrite Hc.
  - unfold createOrchestrator, bind, this_orchestratorCollection.
    now rewrite Ho.
  - unfold addMessage, bind, this_orchestratorCollection. now rewrite Ho.
  - unfold getMessages, bind, this_orchestratorCollection. rewrite Ho.
    unfold orchestrators_read, bind. simpl.
    now destruct (Mongo.findOne (chat_id_is orchestratorId)
                    (orchestrators (database s))).
  - unfold findOrchestratorsByUser, bind, this_orchestratorCollection.
    now rewrite Ho.
  - unfold getOrchestratorById, bind, this_orchestratorCollection.
    now rewrite Ho.
  - reflexivity.
Qed.

Lemma handles_run (history : list Call) (s : MongoDb) :
  collection s = true ->
  orchestratorCollection s = true ->
  collection (run history s) = true /\
  orchestratorCollection (run history s) = true.
Proof.
  revert s. unfold run.
  induction history as [|c rest IH]; intros s Hc Ho; simpl; [now split|].
  destruct (step_effect c s) as (_ & Hc' & Ho'). apply IH; auto.
Qed.

(** X7: no method ever unassigns a handle.  After [connect], from any
    object and along every later history of calls, both handles are
    assigned, so neither handle error can occur again: [findDueTasks]
    does not throw "Database collection is not initialized" and no
    method throws the [TypeError] of an undefined handle. *)
Theorem handles_stay_assigned
  (history : list Call) (c : Call) (s : MongoDb) :
  collection (run (Connect :: history) s) = true /\
  orchestratorCollection (run (Connect :: history) s) = true /\
  call_failure c (run (Connect :: history) s)
  <> Some CollectionNotInitialized /\
  call_failure c (run (Connect :: history) s) <> Some TypeError.
Proof.
  assert (Hc : collection (step Connect s) = true /\
               orchestratorCollection (step Connect s) = true).
  { unfold step, after.
    destruct (connect_runs s) as (s1 & -> & _ & _ & Hc & Ho & _).
    now split. }
  destruct Hc as [Hc Ho].
  change (run (Connect :: history) s) with (run history (step Connect s)).
  destruct (handles_run history (step Connect s) Hc Ho) as [Hc' Ho'].
  split; [exact Hc'|]. split; [exact Ho'|].
  rewrite (call_failure_with_handles c _ Hc' Ho'). split; discriminate.
Qed.

(** X1: while the handles are unassigned (no [connect] yet),
    [findDueTasks] throws its own error "Database collection is not
    initialized", every other method that goes through a handle throws
    a [TypeError], and none of them changes the object. *)
Theorem before_connect_throws (c : Call) (s : MongoDb) :
  collection s = false ->
  orchestratorCollection s = false ->
  match c with
  | Connect | GetOrchestratorsByUserId _ => True
  | FindDueTasks _ _ =>
      call_failure c s = Some CollectionNotInitialized /\ step c s = s
  | _ => call_failure c s = Some TypeError /\ step c s = s
  end.
Proof.
  intros Hc Ho.
  destruct c; trivial; unfold call_failure, failure, step, after.
  - unfold createTask, bind, this_collection. now rewrite Hc.
  - unfold findDueTasks. now rewrite Hc.
  - unfold markRunning, bind, this_collection. now rewrite Hc.
  - unfold markCompleted, bind, this_collection. now rewrite Hc.
  - unfold updateNextRun, bind, this_collection. now rewrite Hc.
  - unfold rescheduleIfRecurring, markCompleted, updateNextRun,
      update_nothing, bind, this_collection.
    destruct (not_intervalMs task), (task_id task); now rewrite Hc.
  - unfold deleteAll, bind, this_collection. now rewrite Hc.
  - unfold createOrchestrator, bind, this_orchestratorCollection.
    now rewrite Ho.
  - unfold addMessage, bind, this_orchestratorCollection. now rewrite Ho.
  - unfold getMessages, bind, this_orchestratorCollection. now rewrite Ho.
  - unfold findOrchestratorsByUser, bind, this_orchestratorCollection.
    now rewrite Ho.
  - unfold getOrchestratorById, bind, this_orchestratorCollection.
    now rewrite Ho.
Qed.

Lemma before_connect_throws_witness :
  call_failure (FindDueTasks 10 50) (constructor Sample.empty 1%N)
  = Some CollectionNotInitialized /\
  step (FindDueTasks 10 50) (constructor Sample.empty 1%N)
  = constructor Sample.empty 1%N.
Proof.
  exact (before_connect_throws (FindDueTasks 10 50)
           (constructor Sample.empty 1%N) eq_refl eq_refl).
Defined.

Lemma tasks_write_same (f : list ScheduledTask -> list ScheduledTask)
  (s : MongoDb) :
  f (tasks s) = tasks s ->
  database (after_tasks_write f s) = database s.
Proof.
  destruct s as [c col ocol fresh [ts tix os oix]].
  unfold after_tasks_write, tasks, chats. simpl. now intros ->.
Qed.

Lemma update_unknown_task (u : ScheduledTask -> ScheduledTask)
  (taskId : ObjectId) (s : MongoDb) :
  collection s = true ->
  lookup_task taskId s = None ->
  exists s',
    (this_collection ;;;
     tasks_write (Mongo.updateOne (task_id_is taskId) u)) s = Ok (tt, s') /\
    database s' = database s.
Proof.
  intros Hc Hnone. eexists. split; [now apply update_by_id_runs|].
  apply tasks_write_same. apply updateOne_no_match.
  now apply findOne_none.
Qed.

(** X8: on a connected object, [markRunning], [markCompleted],
    [updateNextRun] and [rescheduleIfRecurring] called with an identifier
    that names no stored task return normally and leave the whole
    database as it was: a missing task is not reported. *)
Theorem unknown_task_is_silent
  (dateNow : Z) (now : Date) (taskId : ObjectId) (failed : bool)
  (newRunTime : Date) (task : ScheduledTask) (s : MongoDb) :
  collection s = true ->
  lookup_task taskId s = None ->
  task_id task = Some taskId ->
  (exists s', markRunning now taskId s = Ok (tt, s') /\
              database s' = database s) /\
  (exists s', markCompleted now taskId failed s = Ok (tt, s') /\
              database s' = database s) /\
  (exists s', updateNextRun now taskId newRunTime s = Ok (tt, s') /\
              database s' = database s) /\
  (exists s', rescheduleIfRecurring dateNow now task s = Ok (tt, s') /\
              database s' = database s).
Proof.
  intros Hc Hnone Hid.
  split; [now apply update_unknown_task|].
  split; [now apply update_unknown_task|].
  split; [now apply update_unknown_task|].
  unfold rescheduleIfRecurring. rewrite Hid.
  destruct (not_intervalMs task); now apply update_unknown_task.
Qed.

Lemma unknown_task_is_silent_witness :
  (exists s', markRunning 20 7%N Sample.one_task = Ok (tt, s') /\
              database s' = database Sample.one_task) /\
  (exists s', markCompleted 20 7%N true Sample.one_task = Ok (tt, s') /\
              database s' = database Sample.one_task) /\
  (exists s', updateNextRun 20 7%N 99 Sample.one_task = Ok (tt, s') /\
              database s' = database Sample.one_task) /\
  (exists s',
     rescheduleIfRecurring 19 20
       {| task_id := Some 7%N; task_userId := "alice";
          handlerName := "tweet"; taskData := "{}";
          nextRunAt := 10; intervalMs := Some 5; status := Running;
          task_createdAt := 10; task_updatedAt := 10 |}
       Sample.one_task = Ok (tt, s') /\
     database s' = database Sample.one_task).
Proof.
  exact (unknown_task_is_silent 19 20 (taskId := 7%N) true 99
           {| task_id := Some 7%N; task_userId := "alice";
              handlerName := "tweet"; taskData := "{}";
              nextRunAt := 10; intervalMs := Some 5; status := Running;
              task_createdAt := 10; task_updatedAt := 10 |}
           Sample.one_task eq_refl eq_refl eq_refl).
Defined.

(** X10: on a connected object, [addMessage] called with an identifier
    that names no stored session returns normally and leaves the whole
    database as it was: no session is created and the message is
    dropped, so [getMessages] on that identifier still returns the empty
    sequence. *)
Theorem addMessage_unknown_session_is_silent
  (stamp now : Date) (orchestratorId : ObjectId)
  (role0 : HandlerRole) (name0 : string) (data0 : Payload) (s : MongoDb) :
  orchestratorCollection s = true ->
  lookup_chat orchestratorId s = None ->
  exists s',
    addMessage stamp now orchestratorId role0 name0 data0 s = Ok (tt, s') /\
    database s' = database s /\
    eval (getMessages orchestratorId) s' = Some [].
Proof.
  intros Hc Hnone.
  unfold addMessage, bind, this_orchestratorCollection. rewrite Hc.
  eexists. split; [reflexivity|].
  assert (Hdb : forall f, f (chats s) = chats s ->
            database (after_chats_write f s) = database s).
  { destruct s as [c col ocol fresh [ts tix os oix]].
    unfold after_chats_write, tasks, chats. simpl. now intros f ->. }
  match goal with
  | |- database ?x = _ /\ _ =>
      change x with
        (after_chats_write
           (Mongo.updateOne (chat_id_is orchestratorId)
              (push_message {| role := role0; name := name0;
                               data := data0; timestamp := stamp |} now)) s)
  end.
  assert (Heq : database
                  (after_chats_write
                     (Mongo.updateOne (chat_id_is orchestratorId)
                        (push_message {| role := role0; name := name0;
                                         data := data0;
                                         timestamp := stamp |} now)) s)
                = database s).
  { apply Hdb. apply updateOne_no_match. now apply findOne_none. }
  split; [exact Heq|].
  rewrite getMessages_eval by exact Hc.
  unfold lookup_chat, chats in *. rewrite Heq. now rewrite Hnone.
Qed.

Lemma addMessage_unknown_session_is_silent_witness :
  exists s',
    addMessage 120 121 7%N Input "twitter" "lost" Sample.one_message
    = Ok (tt, s') /\
    database s' = database Sample.one_message /\
    eval (getMessages 7%N) s' = Some [].
Proof.
  exact (addMessage_unknown_session_is_silent 120 121 7%N Input
           "twitter" "lost" Sample.one_message eq_refl eq_refl).
Defined.

(** X2: on a connected object [deleteAll] removes every task and nothing
    else: sessions, indexes and the identifier generator are kept, and a
    following [findDueTasks] returns the empty sequence for every time
    and every limit. *)
Theorem deleteAll_then_no_due_tasks (now : Date) (limit : Z) (s : MongoDb) :
  collection s = true ->
  exists s',
    deleteAll s = Ok (tt, s') /\
    tasks s' = [] /\
    chats s' = chats s /\
    task_indexes (database s') = task_indexes (database s) /\
    orchestrator_indexes (database s')
    = orchestrator_indexes (database s) /\
    next_ObjectId s' = next_ObjectId s /\
    eval (deleteAll ;;; findDueTasks now limit) s = Some [].
Proof.
  intros Hc. unfold eval, deleteAll, findDueTasks, bind, this_collection.
  rewrite Hc. eexists. split; [reflexivity|]. simpl.
  repeat split. rewrite Hc. simpl.
  unfold Mongo.toArray, Mongo.limit. simpl.
  destruct (limit =? 0); [reflexivity|]. now rewrite firstn_nil.
Qed.

Lemma deleteAll_then_no_due_tasks_witness :
  exists s',
    deleteAll Sample.four_tasks = Ok (tt, s') /\
    tasks s' = [] /\
    chats s' = chats Sample.four_tasks /\
    task_indexes (database s') = task_indexes (database Sample.four_tasks) /\
    orchestrator_indexes (database s')
    = orchestrator_indexes (database Sample.four_tasks) /\
    next_ObjectId s' = next_ObjectId Sample.four_tasks /\
    eval (deleteAll ;;; findDueTasks 40 0) Sample.four_tasks = Some [].
Proof.
  exact (deleteAll_then_no_due_tasks 40 0 Sample.four_tasks eq_refl).
Defined.

(** X11: [updateNextRun] is not guarded by the current status or by the
    current due date.  For every stored task it sets the status to
    pending and [nextRunAt] to the given time, earlier or later than
    before, refreshes [updatedAt], keeps every other field, every other
    task and every session; the task is then due exactly from the given
    time on. *)
Theorem updateNextRun_sets_pending
  (now : Date) (taskId : ObjectId) (newRunTime : Date)
  (s : MongoDb) (t : ScheduledTask) :
  collection s = true ->
  lookup_task taskId s = Some t ->
  exists s' t',
    updateNextRun now taskId newRunTime s = Ok (tt, s') /\
    lookup_task taskId s' = Some t' /\
    status t' = Pending /\
    nextRunAt t' = newRunTime /\
    task_updatedAt t' = now /\
    task_identity t' = task_identity t /\
    (forall later, is_due later t' = true <-> newRunTime <= later) /\
    (forall other, other <> taskId ->
       lookup_task other s' = lookup_task other s) /\
    chats s' = chats s.
Proof.
  intros Hc Ht.
  destruct (updateNextRun_lookup now taskId newRunTime s Hc Ht)
    as (s' & Hrun & Hl & Ho & Hchats).
  exists s', (set_pending_at newRunTime now t).
  repeat split; trivial.
  - intros H. apply is_due_spec in H. exact (proj2 H).
  - intros H. apply is_due_spec. now split.
Qed.

Lemma updateNextRun_sets_pending_witness :
  exists s' t',
    updateNextRun 40 1%N 5 Sample.done_task = Ok (tt, s') /\
    lookup_task 1%N s' = Some t' /\
    status t' = Pending /\
    nextRunAt t' = 5 /\
    task_updatedAt t' = 40 /\
    task_identity t' = (Some 1%N, "alice", "tweet", "{}", None, 10) /\
    (forall later, is_due later t' = true <-> 5 <= later) /\
    (forall other, other <> 1%N ->
       lookup_task other s' = lookup_task other Sample.done_task) /\
    chats s' = chats Sample.done_task.
Proof.
  exact (updateNextRun_sets_pending 40 1%N 5 Sample.done_task
           (t := {| task_id := Some 1%N; task_userId := "alice";
                    handlerName := "tweet"; taskData := "{}";
                    nextRunAt := 10; intervalMs := None; status := Completed;
                    task_createdAt := 10; task_updatedAt := 30 |})
           eq_refl eq_refl).
Defined.

(* ================================================================== *)
(** * Status changes and the due set *)

Lemma updateOne_unique (taskId : ObjectId)
  (u : ScheduledTask -> ScheduledTask) (l : list ScheduledTask) :
  NoDup (map task_id l) ->
  Mongo.updateOne (task_id_is taskId) u l
  = map (fun t => if task_id_is taskId t then u t else t) l.
Proof.
  induction l as [|d rest IH]; simpl; intros Hnd; [reflexivity|].
  inversion Hnd as [|x xs Hnotin Hnd' Heq]; subst.
  destruct (task_id_is taskId d) eqn:Hd.
  - f_equal. rewrite <- (map_id rest) at 1. apply map_ext_in.
    intros e Hin. destruct (task_id_is taskId e) eqn:He; [|reflexivity].
    exfalso. apply Hnotin. apply in_map_iff. exists e. split; [|exact Hin].
    unfold task_id_is in *.
    destruct (task_id d) as [i|], (task_id e) as [j|]; try discriminate.
    apply N.eqb_eq in Hd, He. congruence.
  - f_equal. now apply IH.
Qed.

Lemma due_after_status_change (taskId : ObjectId) (st : TaskStatus)
  (now later : Date) (l : list ScheduledTask) :
  st <> Pending ->
  filter (is_due later)
    (map (fun t => if task_id_is taskId t then set_status st now t else t) l)
  = filter (fun t => is_due later t && negb (task_id_is taskId t)) l.
Proof.
  intros Hst. induction l as [|d rest IH]; simpl; [reflexivity|].
  rewrite IH. destruct (task_id_is taskId d) eqn:Hd; simpl.
  - rewrite andb_false_r.
    replace (is_due later (set_status st now d)) with false; [reflexivity|].
    unfold is_due. simpl. now destruct st.
  - now rewrite andb_true_r.
Qed.

Lemma findDueTasks_eval (now : Date) (limit : Z) (s : MongoDb) :
  collection s = true ->
  exists r rest,
    eval (findDueTasks now limit) s = Some r /\
    Permutation (r ++ rest) (filter (is_due now) (tasks s)).
Proof.
  intros Hc. unfold eval, findDueTasks. rewrite Hc. simpl.
  destruct (sorted_limited_cursor nextRunAt 1 limit (is_due now) (tasks s))
    as (_ & rest & Hperm & _).
  do 2 eexists. split; [reflexivity|exact Hperm].
Qed.

Lemma status_change_hides_task
  (st : TaskStatus) (now later : Date) (limit : Z) (taskId : ObjectId)
  (s : MongoDb) :
  st <> Pending ->
  collection s = true ->
  store_ok s ->
  let s' := after_tasks_write
              (Mongo.updateOne (task_id_is taskId) (set_status st now)) s in
  filter (is_due later) (tasks s')
  = filter (fun t => is_due later t && negb (task_id_is taskId t)) (tasks s) /\
  exists r,
    eval (findDueTasks later limit) s' = Some r /\
    Forall (fun t => task_id t <> Some taskId /\
                     In t (tasks s) /\ is_due later t = true) r.
Proof.
  intros Hst Hc (_ & Hnd & _) s'.
  assert (Hfilter : filter (is_due later) (tasks s')
                    = filter (fun t => is_due later t
                                       && negb (task_id_is taskId t))
                        (tasks s)).
  { unfold s', tasks at 1. simpl.
    rewrite updateOne_unique by exact Hnd.
    now apply due_after_status_change. }
  split; [exact Hfilter|].
  destruct (findDueTasks_eval later limit s' Hc) as (r & rest & Hr & Hperm).
  exists r. split; [exact Hr|].
  apply Forall_forall. intros t Hin.
  assert (Hin' : In t (filter (is_due later) (tasks s'))).
  { eapply Permutation_in; [exact Hperm|]. apply in_or_app. now left. }
  rewrite Hfilter in Hin'. apply filter_In in Hin'.
  destruct Hin' as [Hmem Hb]. apply andb_true_iff in Hb.
  destruct Hb as [Hdue Hnot]. repeat split; trivial.
  intros Hid. unfold task_id_is in Hnot. rewrite Hid, N.eqb_refl in Hnot.
  discriminate.
Qed.

(** X12: on a connected, well-formed store, after [markRunning] on an
    identifier the tasks due at any time are exactly the tasks that were
    due before, less the task with that identifier; so every later
    [findDueTasks], until the task is rescheduled, returns only other
    tasks, each of them stored and due before the call. *)
Theorem markRunning_hides_task
  (now later : Date) (limit : Z) (taskId : ObjectId) (s : MongoDb) :
  collection s = true ->
  store_ok s ->
  exists s' r,
    markRunning now taskId s = Ok (tt, s') /\
    filter (is_due later) (tasks s')
    = filter (fun t => is_due later t && negb (task_id_is taskId t))
        (tasks s) /\
    eval (findDueTasks later limit) s' = Some r /\
    Forall (fun t => task_id t <> Some taskId /\
                     In t (tasks s) /\ is_due later t = true) r.
Proof.
  intros Hc Hok.
  destruct (@status_change_hides_task Running now later limit taskId s)
    as (Hfilter & r & Hr & Hall); trivial; [discriminate|].
  eexists; exists r.
  split; [unfold markRunning; now apply update_by_id_runs|].
  now repeat split.
Qed.

Lemma markRunning_hides_task_witness :
  exists s' r,
    markRunning 5 2%N Sample.four_tasks = Ok (tt, s') /\
    filter (is_due 40) (tasks s')
    = filter (fun t => is_due 40 t && negb (task_id_is 2%N t))
        (tasks Sample.four_tasks) /\
    eval (findDueTasks 40 10) s' = Some r /\
    Forall (fun t => task_id t <> Some 2%N /\
                     In t (tasks Sample.four_tasks) /\
                     is_due 40 t = true) r.
Proof.
  apply (markRunning_hides_task 5 40 10 2%N (s := Sample.four_tasks)
           eq_refl).
  store_ok_by_evaluation.
Defined.

(** X13: on a connected, well-formed store, after [markCompleted] on an
    identifier, with either outcome, the tasks due at any time are
    exactly the tasks that were due before, less the task with that
    identifier; every later [findDueTasks] returns only other tasks. *)
Theorem markCompleted_hides_task
  (now later : Date) (limit : Z) (taskId : ObjectId) (failed : bool)
  (s : MongoDb) :
  collection s = true ->
  store_ok s ->
  exists s' r,
    markCompleted now taskId failed s = Ok (tt, s') /\
    filter (is_due later) (tasks s')
    = filter (fun t => is_due later t && negb (task_id_is taskId t))
        (tasks s) /\
    eval (findDueTasks later limit) s' = Some r /\
    Forall (fun t => task_id t <> Some taskId /\
                     In t (tasks s) /\ is_due later t = true) r.
Proof.
  intros Hc Hok.
  destruct (@status_change_hides_task
              (if failed then Failed else Completed)
              now later limit taskId s)
    as (Hfilter & r & Hr & Hall); trivial; [now destruct failed|].
  eexists; exists r.
  split; [unfold markCompleted; now apply update_by_id_runs|].
  now repeat split.
Qed.

Lemma markCompleted_hides_task_witness :
  exists s' r,
    markCompleted 5 3%N true Sample.four_tasks = Ok (tt, s') /\
    filter (is_due 40) (tasks s')
    = filter (fun t => is_due 40 t && negb (task_id_is 3%N t))
        (tasks Sample.four_tasks) /\
    eval (findDueTasks 40 10) s' = Some r /\
    Forall (fun t => task_id t <> Some 3%N /\
                     In t (tasks Sample.four_tasks) /\
                     is_due 40 t = true) r.
Proof.
  apply (markCompleted_hides_task 5 40 10 3%N true (s := Sample.four_tasks)
           eq_refl).
  store_ok_by_evaluation.
Defined.

(** X14: on a connected, well-formed store, after
    [rescheduleIfRecurring] on a stored task whose object carries a
    non-zero [intervalMs] such that the reading of [Date.now()] plus the
    interval is a valid time value, the task is due exactly from that
    sum on: before that time no
    [findDueTasks] returns a task with its identifier, and from that time
    on the task belongs to the due tasks of the store. *)
Theorem rescheduled_task_due_again
  (dateNow : Z) (now later : Date) (limit : Z) (task : ScheduledTask)
  (taskId : ObjectId) (i : Z) (s : MongoDb) (t : ScheduledTask) :
  collection s = true ->
  store_ok s ->
  task_id task = Some taskId ->
  intervalMs task = Some i ->
  i <> 0 ->
  valid_time (dateNow + i) ->
  lookup_task taskId s = Some t ->
  exists s' t' r,
    rescheduleIfRecurring dateNow now task s = Ok (tt, s') /\
    lookup_task taskId s' = Some t' /\
    nextRunAt t' = dateNow + i /\
    (is_due later t' = true <-> dateNow + i <= later) /\
    eval (findDueTasks later limit) s' = Some r /\
    (later < dateNow + i -> Forall (fun x => task_id x <> Some taskId) r) /\
    (dateNow + i <= later -> In t' (filter (is_due later) (tasks s'))).
Proof.
  intros Hc Hok Hid Hi Hnz Hrange Ht.
  set (u := set_pending_at (dateNow + i) now).
  set (s' := after_tasks_write (Mongo.updateOne (task_id_is taskId) u) s).
  assert (Hrun : rescheduleIfRecurring dateNow now task s = Ok (tt, s')).
  { unfold rescheduleIfRecurring, not_intervalMs. rewrite Hi, Hid.
    destruct (Z.eqb_spec i 0); [contradiction|].
    unfold updateNextRun. now apply update_by_id_runs. }
  destruct (update_by_id_lookup u taskId s) as (Hl & _); [reflexivity|].
  fold s' in Hl. rewrite Ht in Hl. simpl in Hl.
  assert (Hdue : is_due later (u t) = true <-> dateNow + i <= later).
  { rewrite is_due_spec. unfold u. simpl. tauto. }
  assert (Hnd : NoDup (map task_id (tasks s'))).
  { destruct Hok as (_ & Hnd & _). unfold s', tasks at 1. simpl.
    now rewrite map_id_updateOne. }
  destruct (findDueTasks_eval later limit s' Hc) as (r & rest & Hr & Hperm).
  exists s', (u t), r. repeat split; trivial; try apply Hdue.
  - intros Hearly. apply Forall_forall. intros x Hin Hx.
    assert (Hin' : In x (filter (is_due later) (tasks s'))).
    { eapply Permutation_in; [exact Hperm|]. apply in_or_app. now left. }
    apply filter_In in Hin'. destruct Hin' as [Hmem Hxdue].
    pose proof (@findOne_unique _ task_id task_id_is task_id_is_spec
                  taskId x (tasks s') Hnd Hmem Hx) as Hfound.
    unfold lookup_task in Hl. rewrite Hl in Hfound.
    injection Hfound as <-. apply Hdue in Hxdue. lia.
  - intros Hlate. apply filter_In. split; [|now apply Hdue].
    unfold lookup_task, Mongo.findOne in Hl.
    now apply find_some in Hl.
Qed.

Lemma rescheduled_task_due_again_witness :
  exists s' t' r,
    rescheduleIfRecurring 1700000000000 1700000000001
      {| task_id := Some 1%N; task_userId := "alice";
         handlerName := "tweet"; taskData := "{}";
         nextRunAt := 10; intervalMs := Some 60000; status := Running;
         task_createdAt := 10; task_updatedAt := 20 |}
      Sample.every_minute = Ok (tt, s') /\
    lookup_task 1%N s' = Some t' /\
    nextRunAt t' = 1700000000000 + 60000 /\
    (is_due 1700000050000 t' = true
     <-> 1700000000000 + 60000 <= 1700000050000) /\
    eval (findDueTasks 1700000050000 10) s' = Some r /\
    (1700000050000 < 1700000000000 + 60000 ->
     Forall (fun x => task_id x <> Some 1%N) r) /\
    (1700000000000 + 60000 <= 1700000050000 ->
     In t' (filter (is_due 1700000050000) (tasks s'))).
Proof.
  assert (Hnz : 60000 <> 0) by discriminate.
  assert (Hrange : valid_time (1700000000000 + 60000))
    by (unfold valid_time; split; discriminate).
  assert (Hok : store_ok Sample.every_minute) by store_ok_by_evaluation.
  exact (@rescheduled_task_due_again
           1700000000000 1700000000001 1700000050000 10
           {| task_id := Some 1%N; task_userId := "alice";
              handlerName := "tweet"; taskData := "{}";
              nextRunAt := 10; intervalMs := Some 60000; status := Running;
              task_createdAt := 10; task_updatedAt := 20 |}
           1%N 60000 Sample.every_minute
           {| task_id := Some 1%N; task_userId := "alice";
              handlerName := "tweet"; taskData := "{}";
              nextRunAt := 10; intervalMs := Some 60000; status := Running;
              task_createdAt := 10; task_updatedAt := 20 |}
           eq_refl Hok eq_refl eq_refl Hnz Hrange eq_refl).
Defined.

(* ================================================================== *)
(** * What no call changes *)

Lemma step_tasks_other (c : Call) (s : MongoDb) :
  is_DeleteAll c = false ->
  tasks (step c s) = tasks s \/
  (exists x, tasks (step c s) = Mongo.insertOne x (tasks s)) \/
  (exists taskId u,
     (forall t, task_identity (u t) = task_identity t) /\
     tasks (step c s) = Mongo.updateOne (task_id_is taskId) u (tasks s)).
Proof.
  intros Hnot. destruct c; try discriminate; unfold step.
  - unfold after.
    destruct (connect_runs s) as (s1 & -> & _ & _ & _ & _ & _ & _ & _ & H & _).
    now left.
  - unfold after, createTask. with_handle (collection s); [|now left].
    right; left. eexists. reflexivity.
  - left. unfold after, findDueTasks. destruct (collection s); reflexivity.
  - unfold after, markRunning. with_handle (collection s); [|now left].
    right; right. exists taskId, (set_status Running now). now split.
  - unfold after, markCompleted. with_handle (collection s); [|now left].
    right; right.
    exists taskId, (set_status (if failed then Failed else Completed) now).
    now split.
  - unfold after, updateNextRun. with_handle (collection s); [|now left].
    right; right. exists taskId, (set_pending_at newRunTime now).
    now split.
  - unfold after, rescheduleIfRecurring, markCompleted, updateNextRun,
      update_nothing.
    destruct (not_intervalMs task), (task_id task) as [taskId|];
      (with_handle (collection s); [|now left]).
    + right; right. exists taskId, (set_status Completed now). now split.
    + left. unfold tasks. simpl. now apply updateOne_no_match.
    + right; right. eexists taskId, (set_pending_at _ now). now split.
    + left. unfold tasks. simpl. now apply updateOne_no_match.
  - left. unfold after, createOrchestrator.
    with_handle (orchestratorCollection s); reflexivity.
  - left. unfold after, addMessage.
    with_handle (orchestratorCollection s); reflexivity.
  - left. unfold after, getMessages.
    with_handle (orchestratorCollection s); [|reflexivity].
    unfold orchestrators_read, bind. simpl.
    now destruct (Mongo.findOne (chat_id_is orchestratorId)
                    (orchestrators (database s))).
  - left. unfold after, findOrchestratorsByUser.
    with_handle (orchestratorCollection s); reflexivity.
  - left. unfold after, getOrchestratorById.
    with_handle (orchestratorCollection s); reflexivity.
  - now left.
Qed.

Lemma step_keeps_task_identity (c : Call) (s : MongoDb) taskId t :
  is_DeleteAll c = false ->
  lookup_task taskId s = Some t ->
  exists t',
    lookup_task taskId (step c s) = Some t' /\
    task_identity t' = task_identity t.
Proof.
  intros Hnot Hl. unfold lookup_task in *.
  destruct (step_tasks_other c s Hnot)
    as [-> | [[x ->] | (o & u & Hu & ->)]].
  - now exists t.
  - exists t. split; [now apply findOne_insertOne|reflexivity].
  - pose proof (task_identity_id u Hu) as Hid.
    destruct (N.eq_dec taskId o) as [<-|Hne].
    + exists (u t). split; [|apply Hu].
      rewrite findOne_updateOne_same; [now rewrite Hl|].
      intros d. unfold task_id_is. now rewrite Hid.
    + exists t. split; [|reflexivity].
      rewrite findOne_updateOne_other; [exact Hl| |].
      * intros d. unfold task_id_is. now rewrite Hid.
      * intros d. now apply task_id_is_excl.
Qed.

(** X15: along every history of calls without [deleteAll], a stored task
    stays stored under its identifier, and its owner, handler name,
    payload, interval and creation date never change: the only fields a
    method rewrites are [status], [nextRunAt] and [updatedAt]. *)
Theorem task_identity_is_kept
  (history : list Call) (s : MongoDb)
  (taskId : ObjectId) (t : ScheduledTask) :
  forallb (fun c => negb (is_DeleteAll c)) history = true ->
  lookup_task taskId s = Some t ->
  exists t',
    lookup_task taskId (run history s) = Some t' /\
    (task_id t', task_userId t', handlerName t', taskData t',
     intervalMs t', task_createdAt t')
    = (task_id t, task_userId t, handlerName t, taskData t,
       intervalMs t, task_createdAt t).
Proof.
  revert s t. unfold run.
  induction history as [|c rest IH]; intros s t Hno Hl; simpl in *.
  - now exists t.
  - apply andb_true_iff in Hno. destruct Hno as [Hc Hrest].
    apply negb_true_iff in Hc.
    destruct (@step_keeps_task_identity c s taskId t Hc Hl)
      as (t1 & Hl1 & Hi1).
    destruct (IH _ _ Hrest Hl1) as (t2 & Hl2 & Hi2).
    exists t2. split; [exact Hl2|].
    unfold task_identity in *. congruence.
Qed.

Lemma task_identity_is_kept_witness :
  exists t',
    lookup_task 1%N
      (run [ MarkRunning 20 1%N;
             CreateTask 21 "bob" "mail" "{}" 30 None;
             UpdateNextRun 22 1%N 99;
             MarkCompleted 23 1%N true ]
         Sample.one_task) = Some t' /\
    (task_id t', task_userId t', handlerName t', taskData t',
     intervalMs t', task_createdAt t')
    = (Some 1%N, "alice", "tweet", "{}", None, 10).
Proof.
  exact (task_identity_is_kept
           [ MarkRunning 20 1%N;
             CreateTask 21 "bob" "mail" "{}" 30 None;
             UpdateNextRun 22 1%N 99;
             MarkCompleted 23 1%N true ]
           Sample.one_task 1%N
           (t := {| task_id := Some 1%N; task_userId := "alice";
                    handlerName := "tweet"; taskData := "{}";
                    nextRunAt := 10; intervalMs := None; status := Pending;
                    task_createdAt := 10; task_updatedAt := 10 |})
           eq_refl eq_refl).
Defined.

(** X16: every method writes to at most one collection.  The five
    queries leave the whole database as it was; [connect] keeps every
    document; the task methods keep the sessions and their indexes; the
    session methods keep the tasks and their indexes.  This holds whether
    the call returns or throws. *)
Theorem calls_write_one_collection (c : Call) (s : MongoDb) :
  match kind c with
  | Reads => database (step c s) = database s
  | Connects => tasks (step c s) = tasks s /\ chats (step c s) = chats s
  | WritesTasks =>
      chats (step c s) = chats s /\
      orchestrator_indexes (database (step c s))
      = orchestrator_indexes (database s) /\
      task_indexes (database (step c s)) = task_indexes (database s)
  | WritesSessions =>
      tasks (step c s) = tasks s /\
      task_indexes (database (step c s)) = task_indexes (database s) /\
      orchestrator_indexes (database (step c s))
      = orchestrator_indexes (database s)
  end.
Proof.
  destruct c; simpl kind; cbv iota; unfold step.
  - unfold after.
    destruct (connect_runs s)
      as (s1 & -> & _ & _ & _ & _ & _ & _ & _ & Ht & Hc).
    now split.
  - unfold after, createTask. with_handle (collection s); now repeat split.
  - unfold after, findDueTasks. destruct (collection s); reflexivity.
  - unfold after, markRunning. with_handle (collection s); now repeat split.
  - unfold after, markCompleted.
    with_handle (collection s); now repeat split.
  - unfold after, updateNextRun.
    with_handle (collection s); now repeat split.
  - unfold after, rescheduleIfRecurring, markCompleted, updateNextRun,
      update_nothing.
    destruct (not_intervalMs task), (task_id task);
      with_handle (collection s); now repeat split.
  - unfold after, deleteAll. with_handle (collection s); now repeat split.
  - unfold after, createOrchestrator.
    with_handle (orchestratorCollection s); now repeat split.
  - unfold after, addMessage.
    with_handle (orchestratorCollection s); now repeat split.
  - unfold after, getMessages.
    with_handle (orchestratorCollection s); [|reflexivity].
    unfold orchestrators_read, bind. simpl.
    now destruct (Mongo.findOne (chat_id_is orchestratorId)
                    (orchestrators (database s))).
  - unfold after, findOrchestratorsByUser.
    with_handle (orchestratorCollection s); reflexivity.
  - unfold after, getOrchestratorById.
    with_handle (orchestratorCollection s); reflexivity.
  - reflexivity.
Qed.

(* ================================================================== *)
(** * Listing sessions and reading them back *)

Lemma getOrchestratorsByUserId_eval (userId : string) (s : MongoDb) :
  eval (getOrchestratorsByUserId userId) s
  = Some (Mongo.sort chat_createdAt (-1)
            (filter (chat_of_user userId) (chats s))).
Proof. reflexivity. Qed.

Lemma findOrchestratorsByUser_eval (userId : string) (s : MongoDb) :
  orchestratorCollection s = true ->
  eval (findOrchestratorsByUser userId) s
  = Some (filter (chat_of_user userId) (chats s)).
Proof.
  intros Hc. unfold eval, findOrchestratorsByUser, bind,
    this_orchestratorCollection.
  now rewrite Hc.
Qed.

(** X17: on a connected, well-formed store the two listings and the
    lookup by identifier agree.  Every session that
    [getOrchestratorsByUserId] or [findOrchestratorsByUser] lists for a
    user carries an identifier under which [getOrchestratorById] returns
    that very session and [getMessages] its messages; and every session
    of the user that [getOrchestratorById] returns is in both listings. *)
Theorem listed_sessions_are_retrievable (userId : string) (s : MongoDb) :
  orchestratorCollection s = true ->
  store_ok s ->
  exists sorted unsorted,
    eval (getOrchestratorsByUserId userId) s = Some sorted /\
    eval (findOrchestratorsByUser userId) s = Some unsorted /\
    (forall c, In c sorted \/ In c unsorted ->
       exists i,
         chat_id c = Some i /\
         eval (getOrchestratorById i) s = Some (Some c) /\
         eval (getMessages i) s = Some (messages c)) /\
    (forall i c,
       eval (getOrchestratorById i) s = Some (Some c) ->
       chat_userId c = userId ->
       In c sorted /\ In c unsorted).
Proof.
  intros Hc (_ & _ & Hbelow & Hnd).
  rewrite getOrchestratorsByUserId_eval, findOrchestratorsByUser_eval
    by exact Hc.
  do 2 eexists. split; [reflexivity|]. split; [reflexivity|].
  assert (Hsorted : forall c,
            In c (Mongo.sort chat_createdAt (-1)
                    (filter (chat_of_user userId) (chats s)))
            <-> In c (filter (chat_of_user userId) (chats s))).
  { intros c. split; intros H.
    - eapply Permutation_in; [symmetry; apply sort_perm|exact H].
    - eapply Permutation_in; [apply sort_perm|exact H]. }
  split.
  - intros c Hin.
    assert (Hf : In c (filter (chat_of_user userId) (chats s)))
      by (destruct Hin as [H|H]; [now apply Hsorted|exact H]).
    apply filter_In in Hf. destruct Hf as [Hmem _].
    unfold ids_below in Hbelow. rewrite Forall_forall in Hbelow.
    destruct (Hbelow c Hmem) as (i & Hi & _).
    exists i. split; [exact Hi|].
    pose proof (@findOne_unique _ chat_id chat_id_is chat_id_is_spec
                  i c (chats s) Hnd Hmem Hi) as Hfound.
    rewrite getOrchestratorById_eval, getMessages_eval by exact Hc.
    unfold lookup_chat. now rewrite Hfound.
  - intros i c Hget Howner.
    rewrite getOrchestratorById_eval in Hget by exact Hc.
    injection Hget as Hget. unfold lookup_chat, Mongo.findOne in Hget.
    apply find_some in Hget. destruct Hget as [Hmem _].
    assert (Hf : In c (filter (chat_of_user userId) (chats s))).
    { apply filter_In. split; [exact Hmem|].
      now apply chat_of_user_spec. }
    split; [now apply Hsorted|exact Hf].
Qed.

Lemma listed_sessions_are_retrievable_witness :
  exists sorted unsorted,
    eval (getOrchestratorsByUserId "alice") Sample.three_sessions
    = Some sorted /\
    eval (findOrchestratorsByUser "alice") Sample.three_sessions
    = Some unsorted /\
    (forall c, In c sorted \/ In c unsorted ->
       exists i,
         chat_id c = Some i /\
         eval (getOrchestratorById i) Sample.three_sessions
         = Some (Some c) /\
         eval (getMessages i) Sample.three_sessions = Some (messages c)) /\
    (forall i c,
       eval (getOrchestratorById i) Sample.three_sessions = Some (Some c) ->
       chat_userId c = "alice" ->
       In c sorted /\ In c unsorted).
Proof.
  apply (listed_sessions_are_retrievable "alice" (s := Sample.three_sessions)
           eq_refl).
  store_ok_by_evaluation.
Defined.

Lemma sort_newest_last_inserted (c : OrchestratorChat)
  (l : list OrchestratorChat) :
  Forall (fun d => chat_createdAt d < chat_createdAt c) l ->
  Mongo.sort chat_createdAt (-1) (l ++ [c])
  = c :: Mongo.sort chat_createdAt (-1) l.
Proof.
  unfold Mongo.sort. induction 1 as [|d rest Hd Hrest IH]; simpl.
  - reflexivity.
  - rewrite IH. simpl. unfold Mongo.before at 1. simpl.
    destruct (Z.leb_spec (chat_createdAt c) (chat_createdAt d));
      [lia|reflexivity].
Qed.

(** X18: on a connected object, a session created at a time later than
    the creation of every stored session of the same user is listed
    first by [getOrchestratorsByUserId]; behind it come exactly the
    sessions that were listed before, newest first. *)
Theorem new_session_listed_first
  (now1 now2 : Date) (userId : string) (s : MongoDb) :
  orchestratorCollection s = true ->
  (forall c, In c (chats s) -> chat_userId c = userId ->
             chat_createdAt c < now1) ->
  exists s' listed others,
    createOrchestrator now1 now2 userId s = Ok (next_ObjectId s, s') /\
    eval (getOrchestratorsByUserId userId) s = Some listed /\
    eval (getOrchestratorsByUserId userId) s'
    = Some ({| chat_id := Some (next_ObjectId s);
               chat_userId := userId;
               chat_createdAt := now1;
               chat_updatedAt := now2;
               messages := [] |} :: others) /\
    Permutation others listed /\
    StronglySorted newer_or_same others /\
    Forall (fun c => chat_createdAt c < now1) others.
Proof.
  intros Hc Hnewer.
  set (c := {| chat_id := Some (next_ObjectId s); chat_userId := userId;
               chat_createdAt := now1; chat_updatedAt := now2;
               messages := [] |}).
  set (s' := after (createOrchestrator now1 now2 userId) s).
  assert (Hrun : createOrchestrator now1 now2 userId s
                 = Ok (next_ObjectId s, s')).
  { unfold s', after, createOrchestrator, bind,
      this_orchestratorCollection. now rewrite Hc. }
  assert (Hchats : chats s' = (chats s ++ [c])%list).
  { unfold s', after, createOrchestrator, bind,
      this_orchestratorCollection. now rewrite Hc. }
  set (listed := Mongo.sort chat_createdAt (-1)
                   (filter (chat_of_user userId) (chats s))).
  assert (Hold : Forall (fun d => chat_createdAt d < chat_createdAt c)
                   (filter (chat_of_user userId) (chats s))).
  { apply Forall_forall. intros d Hd. apply filter_In in Hd.
    destruct Hd as [Hmem Huser]. apply chat_of_user_spec in Huser.
    simpl. now apply Hnewer. }
  exists s', listed, listed.
  split; [exact Hrun|]. split; [apply getOrchestratorsByUserId_eval|].
  split.
  { rewrite getOrchestratorsByUserId_eval, Hchats, filter_app. simpl.
    replace (chat_of_user userId c) with true
      by (symmetry; now apply chat_of_user_spec).
    f_equal. now apply sort_newest_last_inserted. }
  split; [reflexivity|]. split.
  { eapply StronglySorted_weaken; [|apply sort_sorted].
    intros x y H. apply Z.leb_le in H. exact H. }
  eapply Permutation_Forall; [apply sort_perm|exact Hold].
Qed.

Lemma new_session_listed_first_witness :
  exists s' listed others,
    createOrchestrator 300 301 "alice" Sample.three_sessions
    = Ok (4%N, s') /\
    eval (getOrchestratorsByUserId "alice") Sample.three_sessions
    = Some listed /\
    eval (getOrchestratorsByUserId "alice") s'
    = Some ({| chat_id := Some 4%N;
               chat_userId := "alice";
               chat_createdAt := 300;
               chat_updatedAt := 301;
               messages := [] |} :: others) /\
    Permutation others listed /\
    StronglySorted newer_or_same others /\
    Forall (fun c => chat_createdAt c < 300) others.
Proof.
  apply (@new_session_listed_first 300 301 "alice"
           Sample.three_sessions eq_refl).
  simpl. intros c [<-|[<-|[<-|[]]]]; simpl; intros; first [lia|discriminate].
Defined.

(* ================================================================== *)
(** * A new task and the next poll *)

Lemma limit_singleton (A : Type) (n : Z) (x : A) :
  Mongo.limit n [x] = [x].
Proof.
  unfold Mongo.limit. destruct (Z.eqb_spec n 0) as [|Hn]; [reflexivity|].
  destruct (Z.abs_nat n) eqn:Habs; [lia|]. simpl. now rewrite firstn_nil.
Qed.

Lemma limit_nil (A : Type) (n : Z) : Mongo.limit n (@nil A) = [].
Proof.
  unfold Mongo.limit. destruct (n =? 0); [reflexivity|apply firstn_nil].
Qed.

(** X19: on a connected object with no task due at the time of the poll,
    a [createTask] followed by [findDueTasks], with any limit, returns
    exactly the new task when its [nextRunAt] is not after the poll, and
    nothing when it is. *)
Theorem created_task_is_picked_up
  (now later : Date) (limit : Z) (userId handlerName0 : string)
  (taskData0 : Payload) (nextRunAt0 : Date) (intervalMs0 : option Z)
  (s : MongoDb) :
  collection s = true ->
  filter (is_due later) (tasks s) = [] ->
  eval (createTask now userId handlerName0 taskData0 nextRunAt0 intervalMs0
        ;;; findDueTasks later limit) s
  = Some (if nextRunAt0 <=? later
          then [ {| task_id := Some (next_ObjectId s);
                    task_userId := userId;
                    handlerName := handlerName0;
                    taskData := taskData0;
                    nextRunAt := nextRunAt0;
                    intervalMs := intervalMs0;
                    status := Pending;
                    task_createdAt := now;
                    task_updatedAt := now |} ]
          else []).
Proof.
  intros Hc Hnone.
  unfold eval, createTask, findDueTasks, bind, this_collection.
  rewrite Hc. simpl. rewrite Hc. simpl.
  unfold Mongo.toArray, Mongo.find, Mongo.insertOne.
  fold (tasks s). rewrite filter_app, Hnone. simpl.
  unfold is_due at 1. simpl.
  destruct (nextRunAt0 <=? later); simpl.
  - now rewrite limit_singleton.
  - now rewrite limit_nil.
Qed.

Lemma created_task_is_picked_up_witness :
  eval (createTask 50 "bob" "mail" "{}" 60 None ;;; findDueTasks 70 1)
    Sample.done_task
  = Some (if 60 <=? 70
          then [ {| task_id := Some (next_ObjectId Sample.done_task);
                    task_userId := "bob";
                    handlerName := "mail";
                    taskData := "{}";
                    nextRunAt := 60;
                    intervalMs := None;
                    status := Pending;
                    task_createdAt := 50;
                    task_updatedAt := 50 |} ]
          else []).
Proof.
  exact (created_task_is_picked_up 50 70 1 "bob" "mail" "{}" 60 None
           Sample.done_task eq_refl eq_refl).
Defined.
